(** * Head-pose control pipeline of the two webcam games

    A shallow embedding of the vision-processing code of [src/breakout.ts]
    (the paddle game, continuous targeting) and of the snake game (discrete
    headings), together with the session functions that reset their state.

    Modelling decisions:
    - a JavaScript [number] is an IEEE 754 binary64 value, so coordinates,
      velocities and the paddle position are primitive floats and every
      arithmetic operation rounds as it does in the browser;
    - [Date.now()] returns an integral number of milliseconds far below
      2^53, where subtraction is exact: timestamps are integers ([Z]);
    - the module-level [let] variables of each file form one record that
      every function takes and returns;
    - reading a property of [null] or [undefined] is the one way this code
      can throw, so functions return a [completion];
    - canvas drawing, DOM text and [console.log] have no effect on the
      variables and are left out. *)

From Stdlib Require Import ZArith List Bool Lia Sorted Floats.
From Stdlib Require Import Wellfounded.
Import ListNotations.

Set Warnings "-inexact-float".

(** ** JavaScript values *)

Inductive completion (A : Type) : Type :=
| Normal (a : A)
| TypeError.
Arguments Normal {A} a.
Arguments TypeError {A}.

Definition bind {A B : Type} (c : completion A) (k : A -> completion B)
  : completion B :=
  match c with
  | Normal a => k a
  | TypeError => TypeError
  end.

Notation "x <- c ;; k" := (bind c (fun x => k))
  (at level 61, c at next level, right associativity).

(** [o.field] on a value that may be [null]. *)
Definition deref {A : Type} (o : option A) : completion A :=
  match o with
  | Some a => Normal a
  | None => TypeError
  end.

(** An object is truthy, [null] and [undefined] are not. *)
Definition truthy {A : Type} (o : option A) : bool :=
  match o with
  | Some _ => true
  | None => false
  end.

(** [Math.max] and [Math.min] on two numbers: NaN if either is NaN, and
    [-0] counts as smaller than [+0]. *)
Definition Math_max (a b : float) : float :=
  if (is_nan a || is_nan b)%bool then nan
  else if (a <? b)%float then b
  else if (b <? a)%float then a
  else if get_sign a then b else a.

Definition Math_min (a b : float) : float :=
  if (is_nan a || is_nan b)%bool then nan
  else if (a <? b)%float then a
  else if (b <? a)%float then b
  else if get_sign a then a else b.

(** An array length or a loop index as a number. *)
Definition num_of_nat (n : nat) : float :=
  of_uint63 (Uint63.of_Z (Z.of_nat n)).

(** ** Data shared by both games *)

Record NormalizedLandmark : Type := mkLandmark {
  lm_x : float;
  lm_y : float;
  lm_z : float
}.

Record FaceLandmarkerResult : Type := mkResult {
  faceLandmarks : list (list NormalizedLandmark)
}.

(** [neutralChinPosition: { x: number; y: number } | null] *)
Record Point : Type := mkPoint {
  px : float;
  py : float
}.

Record HeadPose : Type := mkHeadPose {
  timestamp : Z;
  x : float;
  y : float
}.

(** The smoothing code is the same text in both files; only
    [SMOOTHING_DURATION] differs. *)
Module Smoothing.

(** [while (poseHistory.length > 0 && poseHistory[0].timestamp < cutoff)
      poseHistory.shift();] *)
Fixpoint shiftOld (cutoff : Z) (poseHistory : list HeadPose)
  : list HeadPose :=
  match poseHistory with
  | [] => []
  | p :: rest =>
      if (timestamp p <? cutoff)%Z then shiftOld cutoff rest
      else poseHistory
  end.

(** [poseHistory.push({ timestamp: now, x: chin.x, y: chin.y })] followed
    by the eviction loop with [cutoff = now - SMOOTHING_DURATION]. *)
Definition pushAndPrune (SMOOTHING_DURATION now : Z)
    (chin : NormalizedLandmark) (poseHistory : list HeadPose)
  : list HeadPose :=
  shiftOld (now - SMOOTHING_DURATION)
    (poseHistory ++ [mkHeadPose now (lm_x chin) (lm_y chin)]).

(** [poseHistory.reduce((sum, p) => sum + p.x, 0) / poseHistory.length] *)
Definition averageX (poseHistory : list HeadPose) : float :=
  (fold_left (fun sum p => sum + x p) poseHistory 0
   / num_of_nat (length poseHistory))%float.

Definition averageY (poseHistory : list HeadPose) : float :=
  (fold_left (fun sum p => sum + y p) poseHistory 0
   / num_of_nat (length poseHistory))%float.

(** [if (gameRunning && !neutralChinPosition)
      neutralChinPosition = { x: chin.x, y: chin.y };] *)
Definition calibrate (gameRunning : bool) (chin : NormalizedLandmark)
    (neutralChinPosition : option Point) : option Point :=
  if (gameRunning && negb (truthy neutralChinPosition))%bool
  then Some (mkPoint (lm_x chin) (lm_y chin))
  else neutralChinPosition.

End Smoothing.

(** [gameCanvas.width] and [gameCanvas.height], fixed by the page. *)
Record Canvas : Type := mkCanvas {
  width : float;
  height : float
}.

(** ** The paddle game ([src/breakout.ts]) *)
Module Breakout.

Open Scope float_scope.

Definition SMOOTHING_DURATION : Z := 200.

Definition paddleWidth : float := 120.
Definition ballRadius : float := 10.
Definition brickRowCount : nat := 5.
Definition brickColumnCount : nat := 7.
Definition brickWidth : float := 75.
Definition brickHeight : float := 20.
Definition brickPadding : float := 10.
Definition brickOffsetTop : float := 30.
Definition brickOffsetLeft : float := 30.

Record Brick : Type := mkBrick {
  bx : float;
  by_ : float;
  status : Z
}.

(** The module-level variables. [loopPending] says whether the callback
    registered under [gameLoopId] is still waiting to run. *)
Record State : Type := mkState {
  lastVideoTime : float;
  gameRunning : bool;
  loopPending : bool;
  neutralChinPosition : option Point;
  poseHistory : list HeadPose;
  paddleX : float;
  ballX : float;
  ballY : float;
  ballDX : float;
  ballDY : float;
  score : Z;
  lives : Z;
  bricks : list (list Brick)
}.

Definition set_lastVideoTime (v : float) (s : State) : State :=
  mkState v (gameRunning s) (loopPending s) (neutralChinPosition s)
    (poseHistory s) (paddleX s) (ballX s) (ballY s) (ballDX s) (ballDY s)
    (score s) (lives s) (bricks s).

Definition set_gameRunning (v : bool) (s : State) : State :=
  mkState (lastVideoTime s) v (loopPending s) (neutralChinPosition s)
    (poseHistory s) (paddleX s) (ballX s) (ballY s) (ballDX s) (ballDY s)
    (score s) (lives s) (bricks s).

Definition set_loopPending (v : bool) (s : State) : State :=
  mkState (lastVideoTime s) (gameRunning s) v (neutralChinPosition s)
    (poseHistory s) (paddleX s) (ballX s) (ballY s) (ballDX s) (ballDY s)
    (score s) (lives s) (bricks s).

Definition set_neutralChinPosition (v : option Point) (s : State) : State :=
  mkState (lastVideoTime s) (gameRunning s) (loopPending s) v
    (poseHistory s) (paddleX s) (ballX s) (ballY s) (ballDX s) (ballDY s)
    (score s) (lives s) (bricks s).

Definition set_poseHistory (v : list HeadPose) (s : State) : State :=
  mkState (lastVideoTime s) (gameRunning s) (loopPending s)
    (neutralChinPosition s) v (paddleX s) (ballX s) (ballY s) (ballDX s)
    (ballDY s) (score s) (lives s) (bricks s).

Definition set_paddleX (v : float) (s : State) : State :=
  mkState (lastVideoTime s) (gameRunning s) (loopPending s)
    (neutralChinPosition s) (poseHistory s) v (ballX s) (ballY s)
    (ballDX s) (ballDY s) (score s) (lives s) (bricks s).

Definition set_ballX (v : float) (s : State) : State :=
  mkState (lastVideoTime s) (gameRunning s) (loopPending s)
    (neutralChinPosition s) (poseHistory s) (paddleX s) v (ballY s)
    (ballDX s) (ballDY s) (score s) (lives s) (bricks s).

Definition set_ballY (v : float) (s : State) : State :=
  mkState (lastVideoTime s) (gameRunning s) (loopPending s)
    (neutralChinPosition s) (poseHistory s) (paddleX s) (ballX s) v
    (ballDX s) (ballDY s) (score s) (lives s) (bricks s).

Definition set_ballDX (v : float) (s : State) : State :=
  mkState (lastVideoTime s) (gameRunning s) (loopPending s)
    (neutralChinPosition s) (poseHistory s) (paddleX s) (ballX s)
    (ballY s) v (ballDY s) (score s) (lives s) (bricks s).

Definition set_ballDY (v : float) (s : State) : State :=
  mkState (lastVideoTime s) (gameRunning s) (loopPending s)
    (neutralChinPosition s) (poseHistory s) (paddleX s) (ballX s)
    (ballY s) (ballDX s) v (score s) (lives s) (bricks s).

Definition set_score (v : Z) (s : State) : State :=
  mkState (lastVideoTime s) (gameRunning s) (loopPending s)
    (neutralChinPosition s) (poseHistory s) (paddleX s) (ballX s)
    (ballY s) (ballDX s) (ballDY s) v (lives s) (bricks s).

Definition set_lives (v : Z) (s : State) : State :=
  mkState (lastVideoTime s) (gameRunning s) (loopPending s)
    (neutralChinPosition s) (poseHistory s) (paddleX s) (ballX s)
    (ballY s) (ballDX s) (ballDY s) (score s) v (bricks s).

Definition set_bricks (v : list (list Brick)) (s : State) : State :=
  mkState (lastVideoTime s) (gameRunning s) (loopPending s)
    (neutralChinPosition s) (poseHistory s) (paddleX s) (ballX s)
    (ballY s) (ballDX s) (ballDY s) (score s) (lives s) v.

Inductive UserDirection : Type := Left | Right | NoDirection.

Definition UserDirection_eqb (a b : UserDirection) : bool :=
  match a, b with
  | Left, Left | Right, Right | NoDirection, NoDirection => true
  | _, _ => false
  end.

Section WithCanvas.

Variable gameCanvas : Canvas.

(** *** Vision processing *)

Definition horizontalThreshold : float := 0.02.

(** The video is mirrored: a larger [chin.x] is a move to the left. *)
Definition userDirection (hDiff : float) : UserDirection :=
  if horizontalThreshold <? hDiff then Left
  else if hDiff <? - horizontalThreshold then Right
  else NoDirection.

Definition requiredDirection (ballDX : float) : UserDirection :=
  if 0 <? ballDX then Right else Left.

(** [(1 - avgX) * gameCanvas.width - (paddleWidth / 2)] *)
Definition directControl (avgX : float) : float :=
  (1 - avgX) * width gameCanvas - paddleWidth / 2.

(** The value given to [targetPaddleX] (lines 141-166). *)
Definition targetPaddleX (s : State) (avgX : float) : completion float :=
  if (gameRunning s && (0 <? ballDY s) && truthy (neutralChinPosition s))%bool
  then
    neutral <- deref (neutralChinPosition s) ;;
    let hDiff := avgX - px neutral in
    if UserDirection_eqb (userDirection hDiff) (requiredDirection (ballDX s))
    then Normal (ballX s - paddleWidth / 2)
    else Normal (directControl avgX)
  else Normal (directControl avgX).

(** [paddleX += (targetPaddleX - paddleX) * 0.2] *)
Definition ease (paddleX target : float) : float :=
  paddleX + (target - paddleX) * 0.2.

(** [Math.max(0, Math.min(gameCanvas.width - paddleWidth, paddleX))] *)
Definition clampPaddle (paddleX : float) : float :=
  Math_max 0 (Math_min (width gameCanvas - paddleWidth) paddleX).

Definition processLandmarks (s : State) (now : Z)
    (landmarks : list NormalizedLandmark) : completion State :=
  match nth_error landmarks 152 with
  | None => Normal s
  | Some chin =>
      let s :=
        set_neutralChinPosition
          (Smoothing.calibrate (gameRunning s) chin (neutralChinPosition s))
          s in
      let s :=
        set_poseHistory
          (Smoothing.pushAndPrune SMOOTHING_DURATION now chin (poseHistory s))
          s in
      if (length (poseHistory s) =? 0)%nat then Normal s
      else
        let avgX := Smoothing.averageX (poseHistory s) in
        target <- targetPaddleX s avgX ;;
        Normal (set_paddleX (clampPaddle (ease (paddleX s) target)) s)
  end.

(** One run of the animation-frame callback [predictWebcam]; [results] is
    what [detectForVideo] returned and [now] what [Date.now()] read. *)
Definition predictWebcam (s : State) (videoTime : float) (now : Z)
    (results : option FaceLandmarkerResult) : completion State :=
  if negb (videoTime =? lastVideoTime s) then
    let s := set_lastVideoTime videoTime s in
    match results with
    | Some r =>
        match faceLandmarks r with
        | face :: _ => processLandmarks s now face
        | [] => Normal s
        end
    | None => Normal s
    end
  else Normal s.

(** *** Game logic *)

Definition initializeBricks (s : State) : State :=
  set_bricks
    (repeat (repeat (mkBrick 0 0 1) brickRowCount) brickColumnCount) s.

(** The five assignments that put the ball and the paddle back at their
    starting places; [resetGame] and the lost-life branch of [draw] both
    spell them out. *)
Definition serve (s : State) : State :=
  set_paddleX ((width gameCanvas - paddleWidth) / 2)
    (set_ballDY (-4)
       (set_ballDX 4
          (set_ballY (height gameCanvas - 30)
             (set_ballX (width gameCanvas / 2) s)))).

Definition resetGame (s : State) : State :=
  let s := set_lives 3 (set_score 0 s) in
  let s := serve s in
  let s := set_neutralChinPosition None s in
  initializeBricks s.

(** [cancelAnimationFrame(gameLoopId)] drops the waiting callback. *)
Definition endGame (s : State) : State :=
  set_loopPending false (set_gameRunning false s).

Definition winGame (s : State) : State := endGame s.

Fixpoint mapi {A B : Type} (f : nat -> A -> B) (i : nat) (l : list A)
  : list B :=
  match l with
  | [] => []
  | a :: rest => f i a :: mapi f (S i) rest
  end.

(** The loops run over [c < brickColumnCount], [r < brickRowCount]; the
    array always has that shape, so they visit each brick once. *)
Definition drawBricks (s : State) : State :=
  set_bricks
    (mapi (fun c column =>
       mapi (fun r b =>
         if (status b =? 1)%Z then
           mkBrick
             (num_of_nat c * (brickWidth + brickPadding) + brickOffsetLeft)
             (num_of_nat r * (brickHeight + brickPadding) + brickOffsetTop)
             (status b)
         else b) 0%nat column) 0%nat (bricks s))
    s.

(** The body of the inner loop of [collisionDetection] for one brick. *)
Definition hitBrick (s : State) (b : Brick) : State * Brick :=
  if (status b =? 1)%Z then
    if ((bx b <? ballX s) && (ballX s <? bx b + brickWidth)
        && (by_ b <? ballY s) && (ballY s <? by_ b + brickHeight))%bool
    then
      let s := set_score (score s + 1) (set_ballDY (- ballDY s) s) in
      let s :=
        if (score s =? Z.of_nat (brickRowCount * brickColumnCount))%Z
        then winGame s else s in
      (s, mkBrick (bx b) (by_ b) 0)
    else (s, b)
  else (s, b).

Fixpoint hitColumn (s : State) (column : list Brick) : State * list Brick :=
  match column with
  | [] => (s, [])
  | b :: rest =>
      let (s1, b1) := hitBrick s b in
      let (s2, rest1) := hitColumn s1 rest in
      (s2, b1 :: rest1)
  end.

Fixpoint hitColumns (s : State) (columns : list (list Brick))
  : State * list (list Brick) :=
  match columns with
  | [] => (s, [])
  | column :: rest =>
      let (s1, column1) := hitColumn s column in
      let (s2, rest1) := hitColumns s1 rest in
      (s2, column1 :: rest1)
  end.

Definition collisionDetection (s : State) : State :=
  let (s1, bricks1) := hitColumns s (bricks s) in
  set_bricks bricks1 s1.

Definition draw (s : State) : State :=
  let s := drawBricks s in
  let s := collisionDetection s in
  let s :=
    if ((width gameCanvas - ballRadius <? ballX s + ballDX s)
        || (ballX s + ballDX s <? ballRadius))%bool
    then set_ballDX (- ballDX s) s else s in
  let s :=
    if ballY s + ballDY s <? ballRadius then set_ballDY (- ballDY s) s
    else if height gameCanvas - ballRadius <? ballY s + ballDY s then
      if ((paddleX s <? ballX s) && (ballX s <? paddleX s + paddleWidth))%bool
      then set_ballDY (- ballDY s) s
      else
        let s := set_lives (lives s - 1) s in
        if (lives s =? 0)%Z then endGame s else serve s
    else s in
  set_ballY (ballY s + ballDY s) (set_ballX (ballX s + ballDX s) s).

(** [draw(); if (gameRunning) gameLoopId = requestAnimationFrame(gameLoop)] *)
Definition gameLoop (s : State) : State :=
  let s := draw s in
  if gameRunning s then set_loopPending true s else s.

Definition startGame (s : State) : State :=
  if gameRunning s then resetGame s
  else gameLoop (resetGame (set_gameRunning true s)).

(** The variables as their initialisers leave them, then
    [initializeBricks(); draw();] at the end of the script. *)
Definition initial : State :=
  draw
    (initializeBricks
       (mkState (-1) false false None []
          ((width gameCanvas - paddleWidth) / 2)
          (width gameCanvas / 2) (height gameCanvas - 30) 4 (-4)
          0%Z 3%Z [])).

(** What the browser calls into the page. *)
Inductive Event : Type :=
| VideoFrame (videoTime : float) (now : Z)
    (results : option FaceLandmarkerResult)
| AnimationFrame
| StartClicked.

Definition step (s : State) (e : Event) : completion State :=
  match e with
  | VideoFrame videoTime now results => predictWebcam s videoTime now results
  | AnimationFrame =>
      if loopPending s then Normal (gameLoop (set_loopPending false s))
      else Normal s
  | StartClicked => Normal (startGame s)
  end.

Fixpoint run (s : State) (events : list Event) : completion State :=
  match events with
  | [] => Normal s
  | e :: rest => s1 <- step s e ;; run s1 rest
  end.

End WithCanvas.

End Breakout.

(** ** The snake game *)
Module Snake.

Open Scope float_scope.

Definition SMOOTHING_DURATION : Z := 500.
Definition MAX_SCORE : Z := 5.
Definition gridSize : float := 20.

Inductive Direction : Type := Up | Down | Left | Right.

(** [===] on two headings. *)
Definition Direction_eqb (a b : Direction) : bool :=
  match a, b with
  | Up, Up | Down, Down | Left, Left | Right, Right => true
  | _, _ => false
  end.

(** A snake segment or the corner of the food block. *)
Record Cell : Type := mkCell {
  cx : float;
  cy : float
}.

(** The module-level variables. [intervalActive] says whether the timer
    registered under [gameLoopId] is still set. [startTime] only feeds the
    timer text and is left out. *)
Record State : Type := mkState {
  lastVideoTime : float;
  gameRunning : bool;
  intervalActive : bool;
  neutralChinPosition : option Point;
  poseHistory : list HeadPose;
  snake : list Cell;
  food : Cell;
  direction : Direction;
  newDirection : Direction;
  score : Z
}.

Definition set_lastVideoTime (v : float) (s : State) : State :=
  mkState v (gameRunning s) (intervalActive s) (neutralChinPosition s)
    (poseHistory s) (snake s) (food s) (direction s) (newDirection s)
    (score s).

Definition set_gameRunning (v : bool) (s : State) : State :=
  mkState (lastVideoTime s) v (intervalActive s) (neutralChinPosition s)
    (poseHistory s) (snake s) (food s) (direction s) (newDirection s)
    (score s).

Definition set_intervalActive (v : bool) (s : State) : State :=
  mkState (lastVideoTime s) (gameRunning s) v (neutralChinPosition s)
    (poseHistory s) (snake s) (food s) (direction s) (newDirection s)
    (score s).

Definition set_neutralChinPosition (v : option Point) (s : State) : State :=
  mkState (lastVideoTime s) (gameRunning s) (intervalActive s) v
    (poseHistory s) (snake s) (food s) (direction s) (newDirection s)
    (score s).

Definition set_poseHistory (v : list HeadPose) (s : State) : State :=
  mkState (lastVideoTime s) (gameRunning s) (intervalActive s)
    (neutralChinPosition s) v (snake s) (food s) (direction s)
    (newDirection s) (score s).

Definition set_snake (v : list Cell) (s : State) : State :=
  mkState (lastVideoTime s) (gameRunning s) (intervalActive s)
    (neutralChinPosition s) (poseHistory s) v (food s) (direction s)
    (newDirection s) (score s).

Definition set_food (v : Cell) (s : State) : State :=
  mkState (lastVideoTime s) (gameRunning s) (intervalActive s)
    (neutralChinPosition s) (poseHistory s) (snake s) v (direction s)
    (newDirection s) (score s).

Definition set_direction (v : Direction) (s : State) : State :=
  mkState (lastVideoTime s) (gameRunning s) (intervalActive s)
    (neutralChinPosition s) (poseHistory s) (snake s) (food s) v
    (newDirection s) (score s).

Definition set_newDirection (v : Direction) (s : State) : State :=
  mkState (lastVideoTime s) (gameRunning s) (intervalActive s)
    (neutralChinPosition s) (poseHistory s) (snake s) (food s)
    (direction s) v (score s).

Definition set_score (v : Z) (s : State) : State :=
  mkState (lastVideoTime s) (gameRunning s) (intervalActive s)
    (neutralChinPosition s) (poseHistory s) (snake s) (food s)
    (direction s) (newDirection s) v.

Section WithCanvas.

Variable gameCanvas : Canvas.

(** *** Vision processing *)

Definition horizontalThreshold : float := 0.03.
Definition verticalThreshold : float := 0.01.

(** The chain of comparisons that may latch a new pending heading
    (lines 137-145). *)
Definition latchDirection (s : State) (hDiff vDiff : float) : State :=
  if ((horizontalThreshold <? hDiff)
      && negb (Direction_eqb (direction s) Right))%bool
  then set_newDirection Left s
  else if ((hDiff <? - horizontalThreshold)
           && negb (Direction_eqb (direction s) Left))%bool
  then set_newDirection Right s
  else if ((vDiff <? - verticalThreshold)
           && negb (Direction_eqb (direction s) Down))%bool
  then set_newDirection Up s
  else if ((verticalThreshold <? vDiff)
           && negb (Direction_eqb (direction s) Up))%bool
  then set_newDirection Down s
  else s.

(** Lines 123-145: what follows the eviction loop. *)
Definition resolve (s : State) : completion State :=
  if ((length (poseHistory s) =? 0)%nat
      || negb (truthy (neutralChinPosition s)))%bool
  then Normal s
  else
    let avgX := Smoothing.averageX (poseHistory s) in
    let avgY := Smoothing.averageY (poseHistory s) in
    neutral <- deref (neutralChinPosition s) ;;
    let hDiff := avgX - px neutral in
    let vDiff := avgY - py neutral in
    Normal (latchDirection s hDiff vDiff).

Definition processLandmarks (s : State) (now : Z)
    (landmarks : list NormalizedLandmark) : completion State :=
  match nth_error landmarks 152 with
  | None => Normal s
  | Some chin =>
      let s :=
        set_neutralChinPosition
          (Smoothing.calibrate (gameRunning s) chin (neutralChinPosition s))
          s in
      let s :=
        set_poseHistory
          (Smoothing.pushAndPrune SMOOTHING_DURATION now chin (poseHistory s))
          s in
      resolve s
  end.

(** One run of the animation-frame callback [predictWebcam]; [results] is
    what [detectForVideo] returned and [now] what [Date.now()] read. *)
Definition predictWebcam (s : State) (videoTime : float) (now : Z)
    (results : option FaceLandmarkerResult) : completion State :=
  if negb (videoTime =? lastVideoTime s) then
    let s := set_lastVideoTime videoTime s in
    match results with
    | Some r =>
        match faceLandmarks r with
        | face :: _ => processLandmarks s now face
        | [] => Normal s
        end
    | None => Normal s
    end
  else Normal s.

(** *** Game logic *)

(** [placeFood] draws from [Math.random] until the block misses the snake;
    the cell it settles on is supplied by the caller as [placed]. *)
Definition placeFood (placed : Cell) (s : State) : State :=
  set_food placed s.

Definition resetGame (placed : Cell) (s : State) : State :=
  let s := set_snake [mkCell 15 15] s in
  let s := set_direction Right s in
  let s := set_newDirection Right s in
  let s := set_score 0 s in
  let s := placeFood placed s in
  set_neutralChinPosition None s.

(** [clearInterval(gameLoopId)] stops the timer. *)
Definition endGame (s : State) : State :=
  set_intervalActive false (set_gameRunning false s).

(** The loop starts at index 1: the first segment is not compared. *)
Definition checkSelfCollision (head : Cell) (snake : list Cell) : bool :=
  existsb (fun segment =>
    ((cx head =? cx segment) && (cy head =? cy segment))%bool) (tl snake).

Definition update (s : State) (placed : Cell) : completion State :=
  let s := set_direction (newDirection s) s in
  first <- deref (hd_error (snake s)) ;;
  let head := mkCell (cx first) (cy first) in
  let head :=
    if Direction_eqb (direction s) Right
    then mkCell (cx head + 1) (cy head) else head in
  let head :=
    if Direction_eqb (direction s) Left
    then mkCell (cx head - 1) (cy head) else head in
  let head :=
    if Direction_eqb (direction s) Up
    then mkCell (cx head) (cy head - 1) else head in
  let head :=
    if Direction_eqb (direction s) Down
    then mkCell (cx head) (cy head + 1) else head in
  let gridWidth := width gameCanvas / gridSize in
  let gridHeight := height gameCanvas / gridSize in
  let head :=
    if cx head <? 0 then mkCell (gridWidth - 1) (cy head)
    else if gridWidth <=? cx head then mkCell 0 (cy head)
    else head in
  let head :=
    if cy head <? 0 then mkCell (cx head) (gridHeight - 1)
    else if gridHeight <=? cy head then mkCell (cx head) 0
    else head in
  if checkSelfCollision head (snake s) then Normal (endGame s)
  else
    let s := set_snake (head :: snake s) s in
    if ((cx (food s) <=? cx head) && (cx head <? cx (food s) + 3)
        && (cy (food s) <=? cy head) && (cy head <? cy (food s) + 3))%bool
    then
      let s := set_score (score s + 1) s in
      if (MAX_SCORE <=? score s)%Z then Normal (endGame s)
      else Normal (placeFood placed s)
    else Normal (set_snake (removelast (snake s)) s).

(** [update(); draw();] and the timer text. *)
Definition gameLoop (s : State) (placed : Cell) : completion State :=
  update s placed.

(** [gameLoopId = setInterval(gameLoop, 150)] arms the timer. *)
Definition startGame (s : State) (placed : Cell) : State :=
  if gameRunning s then s
  else
    let s := set_gameRunning true s in
    let s := resetGame placed s in
    set_intervalActive true s.

(** The variables as their initialisers leave them. [food] starts as the
    empty object, whose coordinates read as [undefined] and behave as NaN
    in every comparison and sum. *)
Definition initial : State :=
  mkState (-1) false false None [] [mkCell 15 15] (mkCell nan nan)
    Right Right 0%Z.

(** What the browser calls into the page; [placed] is where [placeFood]
    would put the food if the callback calls it. *)
Inductive Event : Type :=
| VideoFrame (videoTime : float) (now : Z)
    (results : option FaceLandmarkerResult)
| TimerFired (placed : Cell)
| StartClicked (placed : Cell).

Definition step (s : State) (e : Event) : completion State :=
  match e with
  | VideoFrame videoTime now results => predictWebcam s videoTime now results
  | TimerFired placed =>
      if intervalActive s then gameLoop s placed else Normal s
  | StartClicked placed => Normal (startGame s placed)
  end.

Fixpoint run (s : State) (events : list Event) : completion State :=
  match events with
  | [] => Normal s
  | e :: rest => s1 <- step s e ;; run s1 rest
  end.

End WithCanvas.

(** The heading a snake cannot turn to in one move. *)
Definition reverse (d : Direction) : Direction :=
  match d with
  | Up => Down
  | Down => Up
  | Left => Right
  | Right => Left
  end.

End Snake.

(** ** Vocabulary of the statements *)

(** The sample that [processLandmarks] pushes for [chin] at time [now]. *)
Definition sampleOf (now : Z) (chin : NormalizedLandmark) : HeadPose :=
  mkHeadPose now (lm_x chin) (lm_y chin).

(** Every retained sample is at most [W] older than [now]. *)
Definition withinWindow (W now : Z) (poseHistory : list HeadPose) : Prop :=
  Forall (fun p => (now - W <= timestamp p)%Z) poseHistory.

(** The clock never runs backwards over a list of readings. *)
Definition nondecreasing (readings : list Z) : Prop :=
  StronglySorted Z.le readings.

(** The timestamps of a history, oldest first. *)
Definition timestamps (poseHistory : list HeadPose) : list Z :=
  map timestamp poseHistory.

(** The reading of [Date.now()] that a callback hands to
    [processLandmarks], and the readings of a list of events in order. *)
Definition breakoutReading (e : Breakout.Event) : list Z :=
  match e with
  | Breakout.VideoFrame _ now _ => [now]
  | _ => []
  end.

Definition breakoutReadings (events : list Breakout.Event) : list Z :=
  flat_map breakoutReading events.

Definition snakeReading (e : Snake.Event) : list Z :=
  match e with
  | Snake.VideoFrame _ now _ => [now]
  | _ => []
  end.

Definition snakeReadings (events : list Snake.Event) : list Z :=
  flat_map snakeReading events.

(** A face whose landmark 152 is [chin]. *)
Definition faceWith (chin : NormalizedLandmark) : list NormalizedLandmark :=
  repeat (mkLandmark 0 0 0) 152 ++ [chin].

Definition detected (chin : NormalizedLandmark)
  : option FaceLandmarkerResult :=
  Some (mkResult [faceWith chin]).

(** A canvas of 520 by 400 pixels, used in the worked examples. *)
Definition canvas520 : Canvas := mkCanvas 520 400.

(** The two session-scoped pieces of pipeline state. *)
Definition breakoutVision (s : Breakout.State)
  : list HeadPose * option Point :=
  (Breakout.poseHistory s, Breakout.neutralChinPosition s).

Definition snakeVision (s : Snake.State) : list HeadPose * option Point :=
  (Snake.poseHistory s, Snake.neutralChinPosition s).

(** Case analysis on every test of the goal. *)
Ltac split_ifs :=
  repeat match goal with
         | |- context [if ?c then _ else _] => destruct c
         end.

(** The state after the calibration step and the append-and-evict step
    of [processLandmarks], before the resolver runs. *)
Definition breakoutSampled (s : Breakout.State) (now : Z)
    (chin : NormalizedLandmark) : Breakout.State :=
  Breakout.set_poseHistory
    (Smoothing.pushAndPrune Breakout.SMOOTHING_DURATION now chin
       (Breakout.poseHistory s))
    (Breakout.set_neutralChinPosition
       (Smoothing.calibrate (Breakout.gameRunning s) chin
          (Breakout.neutralChinPosition s)) s).

Definition snakeSampled (s : Snake.State) (now : Z)
    (chin : NormalizedLandmark) : Snake.State :=
  Snake.set_poseHistory
    (Smoothing.pushAndPrune Snake.SMOOTHING_DURATION now chin
       (Snake.poseHistory s))
    (Snake.set_neutralChinPosition
       (Smoothing.calibrate (Snake.gameRunning s) chin
          (Snake.neutralChinPosition s)) s).

(** A chin at the given normalized position, and the video frame in which
    the detector finds it. *)
Definition chinAt (cx cy : float) : NormalizedLandmark := mkLandmark cx cy 0.

Definition breakoutFrame (videoTime : float) (now : Z) (cx cy : float)
  : Breakout.Event :=
  Breakout.VideoFrame videoTime now (detected (chinAt cx cy)).

Definition snakeFrame (videoTime : float) (now : Z) (cx cy : float)
  : Snake.Event :=
  Snake.VideoFrame videoTime now (detected (chinAt cx cy)).

(** What the latch leaves in [neutralChinPosition]. *)
Definition latched (gameRunning : bool) (neutral : option Point)
    (chin : NormalizedLandmark) : option Point :=
  match gameRunning, neutral with
  | true, None => Some (mkPoint (lm_x chin) (lm_y chin))
  | _, old => old
  end.

(** The aim-assist target while the ball comes down to the right: the
    ball's x minus half the paddle when the player is classified [Right],
    the direct-control value otherwise. *)
Definition assistedTarget (canvas : Canvas) (s : Breakout.State)
    (neutral : Point) (avgX : float) : float :=
  match Breakout.userDirection (avgX - px neutral) with
  | Breakout.Right => (Breakout.ballX s - Breakout.paddleWidth / 2)%float
  | Breakout.Left | Breakout.NoDirection =>
      ((1 - avgX) * width canvas - Breakout.paddleWidth / 2)%float
  end.

(** A running game with the ball coming down to the right at x = 300,
    the neutral position at x = 0.5 and the paddle at x = 100. *)
Definition ballComingDownRight : Breakout.State :=
  Breakout.mkState 1 true true (Some (mkPoint 0.5 0.5)) [] 100
    300 200 4 4 0 3 [].

(** A snake game in mid-session heading up, calibrated at (0.5, 0.5),
    with one sample in its history that is two seconds old at time 3000. *)
Definition calibratedSnake : Snake.State :=
  Snake.mkState 1 true true (Some (mkPoint 0.5 0.5))
    [mkHeadPose 1000 0.7 0.5] [Snake.mkCell 15 15] (Snake.mkCell 3 4)
    Snake.Up Snake.Up 0.

(** The pending heading is not the reverse of the committed one, and the
    snake has a first segment. *)
Definition turnable (s : Snake.State) : Prop :=
  Snake.newDirection s <> Snake.reverse (Snake.direction s)
  /\ Snake.snake s <> [].

(** ** Vocabulary of the further properties *)

(** The game variables of the paddle game, which the vision code never
    writes. *)
Definition breakoutGame (s : Breakout.State)
  : bool * bool * (float * float * float * float) * (Z * Z)
    * list (list Breakout.Brick) :=
  (Breakout.gameRunning s, Breakout.loopPending s,
   (Breakout.ballX s, Breakout.ballY s, Breakout.ballDX s, Breakout.ballDY s),
   (Breakout.score s, Breakout.lives s), Breakout.bricks s).

(** The game variables of the snake game. *)
Definition snakeGame (s : Snake.State)
  : bool * bool * list Snake.Cell * Snake.Cell
    * (Snake.Direction * Z) :=
  (Snake.gameRunning s, Snake.intervalActive s, Snake.snake s, Snake.food s,
   (Snake.direction s, Snake.score s)).

(** The number of bricks of a column, and of the wall, that have been
    hit ([status] no longer 1). *)
Definition clearedColumn (column : list Breakout.Brick) : Z :=
  Z.of_nat (length (filter (fun b => negb (Breakout.status b =? 1)%Z) column)).

Definition cleared (bricks : list (list Breakout.Brick)) : Z :=
  fold_right (fun column n => (clearedColumn column + n)%Z) 0%Z bricks.

(** [bricks[c][r]] is defined for [c < brickColumnCount] and
    [r < brickRowCount], and for no other index. *)
Definition wallShaped (bricks : list (list Breakout.Brick)) : Prop :=
  length bricks = Breakout.brickColumnCount
  /\ Forall (fun column => length column = Breakout.brickRowCount) bricks.

(** What holds of the paddle game between two callbacks. *)
Record breakoutSound (s : Breakout.State) : Prop := mkBreakoutSound {
  sound_loop : Breakout.loopPending s = Breakout.gameRunning s;
  sound_lives : (0 <= Breakout.lives s <= 3)%Z;
  sound_alive : Breakout.gameRunning s = true -> (1 <= Breakout.lives s)%Z;
  sound_score : Breakout.score s = cleared (Breakout.bricks s);
  sound_wall : wallShaped (Breakout.bricks s);
  sound_unfinished :
    Breakout.gameRunning s = true -> Breakout.score s <> 35%Z;
  sound_dx : Breakout.ballDX s = 4%float \/ Breakout.ballDX s = (-4)%float;
  sound_dy : Breakout.ballDY s = 4%float \/ Breakout.ballDY s = (-4)%float
}.

(** What holds of the snake game between two callbacks. *)
Record snakeSound (s : Snake.State) : Prop := mkSnakeSound {
  sound_interval : Snake.intervalActive s = Snake.gameRunning s;
  sound_length : Z.of_nat (length (Snake.snake s)) = (Snake.score s + 1)%Z;
  sound_points : (0 <= Snake.score s <= Snake.MAX_SCORE)%Z;
  sound_playing :
    Snake.gameRunning s = true -> (Snake.score s < Snake.MAX_SCORE)%Z
}.

(** No start click among the events. *)
Definition breakoutNoStart (events : list Breakout.Event) : Prop :=
  Forall (fun e => e <> Breakout.StartClicked) events.

Definition snakeNoStart (events : list Snake.Event) : Prop :=
  Forall (fun e => forall placed, e <> Snake.StartClicked placed) events.

(** The landmark [processLandmarks] would track in a detector result:
    [results.faceLandmarks[0][152]], if there is one. *)
Definition trackedChin (results : option FaceLandmarkerResult)
  : option NormalizedLandmark :=
  match results with
  | Some r =>
      match faceLandmarks r with
      | face :: _ => nth_error face 152
      | [] => None
      end
  | None => None
  end.

(** *** Food placement of the snake game *)
Module Food.

Section WithCanvas.

Variable gameCanvas : Canvas.

(** [Math.floor], a function of the host. *)
Variable Math_floor : float -> float.

(** The cell drawn from two values of [Math.random()]. *)
Definition candidate (u v : float) : Snake.Cell :=
  let gridWidth := (width gameCanvas / Snake.gridSize)%float in
  let gridHeight := (height gameCanvas / Snake.gridSize)%float in
  Snake.mkCell (Math_floor (u * (gridWidth - 2)))
    (Math_floor (v * (gridHeight - 2))).

(** The three nested loops of [placeFood]: some segment lies on one of
    the nine cells of the food block. *)
Definition onSnake (snake : list Snake.Cell) (food : Snake.Cell) : bool :=
  existsb (fun segment =>
    existsb (fun i =>
      existsb (fun j =>
        ((Snake.cx segment =? Snake.cx food + i)
         && (Snake.cy segment =? Snake.cy food + j))%float%bool)
        [0; 1; 2]%float)
      [0; 1; 2]%float) snake.

(** [placeFood] with the values of [Math.random()] it will read, in
    order; each call reads two and calls itself again when the block
    touches the snake. [None]: the values ran out before a call
    returned. *)
Fixpoint placeFood (randoms : list float) (s : Snake.State)
  : option Snake.State :=
  match randoms with
  | u :: v :: rest =>
      let s := Snake.set_food (candidate u v) s in
      if onSnake (Snake.snake s) (Snake.food s) then placeFood rest s
      else Some s
  | _ => None
  end.

End WithCanvas.

End Food.

(** ** The eviction loop *)

Lemma sorted_drop_prefix (pre l : list Z) :
  StronglySorted Z.le (pre ++ l) -> StronglySorted Z.le l.
Proof.
  induction pre as [|a pre IH]; simpl; intros H; [assumption|].
  apply IH. now inversion H.
Qed.

Lemma sorted_drop_middle (l1 : list Z) (t : Z) (l2 : list Z) :
  StronglySorted Z.le (l1 ++ t :: l2) -> StronglySorted Z.le (l1 ++ l2).
Proof.
  induction l1 as [|a l1 IH]; simpl; intros H.
  - now inversion H.
  - inversion H as [|? ? Hs Hall]; subst. constructor.
    + now apply IH.
    + rewrite Forall_app in *. destruct Hall as [H1 H2].
      split; [assumption|]. now inversion H2.
Qed.

(** The loop only removes a prefix. *)
Lemma shiftOld_suffix (cutoff : Z) (h : list HeadPose) :
  exists evicted, h = evicted ++ Smoothing.shiftOld cutoff h.
Proof.
  induction h as [|p rest IH]; simpl.
  - now exists [].
  - destruct (timestamp p <? cutoff)%Z.
    + destruct IH as [ev IH]. exists (p :: ev). simpl. now rewrite <- IH.
    + now exists [].
Qed.

(** On a history in timestamp order the loop leaves nothing older than
    the cutoff. *)
Lemma shiftOld_sorted_fresh (cutoff : Z) (h : list HeadPose) :
  StronglySorted Z.le (timestamps h) ->
  Forall (fun p => (cutoff <= timestamp p)%Z) (Smoothing.shiftOld cutoff h).
Proof.
  induction h as [|p rest IH]; simpl; intros Hs; [constructor|].
  inversion Hs as [|? ? Hrest Hall]; subst.
  destruct (timestamp p <? cutoff)%Z eqn:E.
  - now apply IH.
  - apply Z.ltb_ge in E. constructor; [assumption|].
    unfold timestamps in Hall. rewrite Forall_map in Hall.
    eapply Forall_impl; [|exact Hall]. simpl. intros q Hq. lia.
Qed.

(** A sample stamped [now] is never evicted by the cutoff [now - W]. *)
Lemma shiftOld_keeps_last (cutoff : Z) (h : list HeadPose) (p : HeadPose) :
  (cutoff <= timestamp p)%Z ->
  exists older, Smoothing.shiftOld cutoff (h ++ [p]) = older ++ [p].
Proof.
  intros Hp. induction h as [|q rest IH]; simpl.
  - apply Z.ltb_ge in Hp. rewrite Hp. now exists [].
  - destruct (timestamp q <? cutoff)%Z; [assumption|].
    now exists (q :: rest).
Qed.

Lemma pushAndPrune_keeps_sample (W now : Z) (chin : NormalizedLandmark)
    (h : list HeadPose) :
  (0 <= W)%Z ->
  exists older,
    Smoothing.pushAndPrune W now chin h = older ++ [sampleOf now chin].
Proof.
  intros HW. unfold Smoothing.pushAndPrune.
  apply shiftOld_keeps_last. simpl. lia.
Qed.

Lemma pushAndPrune_fresh (W now : Z) (chin : NormalizedLandmark)
    (h : list HeadPose) :
  nondecreasing (timestamps h ++ [now]) ->
  withinWindow W now (Smoothing.pushAndPrune W now chin h).
Proof.
  intros Hs. unfold withinWindow, Smoothing.pushAndPrune.
  apply shiftOld_sorted_fresh. unfold timestamps.
  now rewrite map_app.
Qed.

(** After an append the history followed by any later readings is still
    in order. *)
Lemma pushAndPrune_sorted (W now : Z) (chin : NormalizedLandmark)
    (h : list HeadPose) (future : list Z) :
  nondecreasing (timestamps h ++ now :: future) ->
  nondecreasing (timestamps (Smoothing.pushAndPrune W now chin h) ++ future).
Proof.
  intros Hs. unfold Smoothing.pushAndPrune.
  destruct (shiftOld_suffix (now - W) (h ++ [sampleOf now chin]))
    as [ev Hev].
  fold (sampleOf now chin).
  apply (sorted_drop_prefix (timestamps ev)).
  rewrite app_assoc. unfold timestamps in *. rewrite <- map_app, <- Hev.
  rewrite map_app, <- app_assoc. exact Hs.
Qed.

(** ** The game logic leaves the vision state alone *)

Lemma hitBrick_vision (s : Breakout.State) (b : Breakout.Brick) :
  breakoutVision (fst (Breakout.hitBrick s b)) = breakoutVision s.
Proof. unfold Breakout.hitBrick. split_ifs; reflexivity. Qed.

Lemma hitColumn_vision (column : list Breakout.Brick) :
  forall s, breakoutVision (fst (Breakout.hitColumn s column))
            = breakoutVision s.
Proof.
  induction column as [|b rest IH]; intros s; simpl; [reflexivity|].
  pose proof (hitBrick_vision s b) as Hb.
  destruct (Breakout.hitBrick s b) as [s1 b1]. simpl in Hb.
  pose proof (IH s1) as Hr.
  destruct (Breakout.hitColumn s1 rest) as [s2 rest1]. simpl in *.
  congruence.
Qed.

Lemma hitColumns_vision (columns : list (list Breakout.Brick)) :
  forall s, breakoutVision (fst (Breakout.hitColumns s columns))
            = breakoutVision s.
Proof.
  induction columns as [|c rest IH]; intros s; simpl; [reflexivity|].
  pose proof (hitColumn_vision c s) as Hc.
  destruct (Breakout.hitColumn s c) as [s1 c1]. simpl in Hc.
  pose proof (IH s1) as Hr.
  destruct (Breakout.hitColumns s1 rest) as [s2 rest1]. simpl in *.
  congruence.
Qed.

Lemma collisionDetection_vision (s : Breakout.State) :
  breakoutVision (Breakout.collisionDetection s) = breakoutVision s.
Proof.
  unfold Breakout.collisionDetection.
  pose proof (hitColumns_vision (Breakout.bricks s) s) as H.
  destruct (Breakout.hitColumns s (Breakout.bricks s)) as [s1 b1].
  exact H.
Qed.

Lemma draw_vision (canvas : Canvas) (s : Breakout.State) :
  breakoutVision (Breakout.draw canvas s) = breakoutVision s.
Proof.
  unfold Breakout.draw.
  transitivity (breakoutVision (Breakout.collisionDetection
                                  (Breakout.drawBricks s))).
  - generalize (Breakout.collisionDetection (Breakout.drawBricks s)).
    intros s1. cbv zeta. split_ifs; reflexivity.
  - now rewrite collisionDetection_vision.
Qed.

Lemma gameLoop_vision (canvas : Canvas) (s : Breakout.State) :
  breakoutVision (Breakout.gameLoop canvas s) = breakoutVision s.
Proof.
  unfold Breakout.gameLoop. cbv zeta.
  destruct (Breakout.gameRunning (Breakout.draw canvas s));
    [change (breakoutVision (Breakout.draw canvas s) = breakoutVision s)|];
    apply draw_vision.
Qed.

Lemma breakout_startGame_vision (canvas : Canvas) (s : Breakout.State) :
  breakoutVision (Breakout.startGame canvas s)
  = (Breakout.poseHistory s, None).
Proof.
  unfold Breakout.startGame.
  destruct (Breakout.gameRunning s); [reflexivity|].
  now rewrite gameLoop_vision.
Qed.

Lemma snake_update_vision (canvas : Canvas) (s s' : Snake.State)
    (placed : Snake.Cell) :
  Snake.update canvas s placed = Normal s' ->
  snakeVision s' = snakeVision s.
Proof.
  unfold Snake.update. cbv zeta. simpl.
  destruct (Snake.snake s) as [|first rest]; simpl; [discriminate|].
  split_ifs; intros H; injection H as <-; reflexivity.
Qed.

(** ** One processed frame *)

Lemma length_eqb_0_snoc {A : Type} (l : list A) (a : A) :
  (length (l ++ [a]) =? 0)%nat = false.
Proof. rewrite length_app. simpl. apply Nat.eqb_neq. lia. Qed.

Lemma targetPaddleX_total (canvas : Canvas) (s : Breakout.State)
    (avgX : float) :
  exists target, Breakout.targetPaddleX canvas s avgX = Normal target.
Proof.
  unfold Breakout.targetPaddleX.
  destruct (Breakout.neutralChinPosition s) as [n|]; simpl.
  - split_ifs; eauto.
  - rewrite andb_false_r. eauto.
Qed.

Lemma targetPaddleX_without_neutral (canvas : Canvas) (s : Breakout.State)
    (avgX : float) :
  Breakout.neutralChinPosition s = None ->
  Breakout.targetPaddleX canvas s avgX
  = Normal (Breakout.directControl canvas avgX).
Proof.
  intros H. unfold Breakout.targetPaddleX. rewrite H. simpl.
  now rewrite andb_false_r.
Qed.

Lemma targetPaddleX_not_running (canvas : Canvas) (s : Breakout.State)
    (avgX : float) :
  Breakout.gameRunning s = false ->
  Breakout.targetPaddleX canvas s avgX
  = Normal (Breakout.directControl canvas avgX).
Proof. intros H. unfold Breakout.targetPaddleX. now rewrite H. Qed.

(** With a chin in the frame the paddle game always reaches the last
    assignment of [processLandmarks]. *)
Lemma breakout_processLandmarks_chin (canvas : Canvas) (s : Breakout.State)
    (now : Z) (landmarks : list NormalizedLandmark)
    (chin : NormalizedLandmark) :
  nth_error landmarks 152 = Some chin ->
  exists target,
    Breakout.targetPaddleX canvas (breakoutSampled s now chin)
      (Smoothing.averageX (Breakout.poseHistory (breakoutSampled s now chin)))
    = Normal target
    /\ Breakout.processLandmarks canvas s now landmarks
       = Normal (Breakout.set_paddleX
                   (Breakout.clampPaddle canvas
                      (Breakout.ease (Breakout.paddleX s) target))
                   (breakoutSampled s now chin)).
Proof.
  intros Hchin.
  destruct (targetPaddleX_total canvas (breakoutSampled s now chin)
              (Smoothing.averageX
                 (Breakout.poseHistory (breakoutSampled s now chin))))
    as [target Ht].
  exists target. split; [exact Ht|].
  unfold Breakout.processLandmarks. rewrite Hchin.
  change (
    (if (length (Breakout.poseHistory (breakoutSampled s now chin)) =? 0)%nat
     then Normal (breakoutSampled s now chin)
     else
       t <- Breakout.targetPaddleX canvas (breakoutSampled s now chin)
              (Smoothing.averageX
                 (Breakout.poseHistory (breakoutSampled s now chin))) ;;
       Normal (Breakout.set_paddleX
                 (Breakout.clampPaddle canvas
                    (Breakout.ease (Breakout.paddleX s) t))
                 (breakoutSampled s now chin)))
    = Normal (Breakout.set_paddleX
                (Breakout.clampPaddle canvas
                   (Breakout.ease (Breakout.paddleX s) target))
                (breakoutSampled s now chin))).
  rewrite Ht.
  destruct (pushAndPrune_keeps_sample Breakout.SMOOTHING_DURATION now chin
              (Breakout.poseHistory s)) as [older Ho];
    [unfold Breakout.SMOOTHING_DURATION; lia|].
  simpl Breakout.poseHistory. rewrite Ho, length_eqb_0_snoc. reflexivity.
Qed.

Lemma snake_resolve_total (s : Snake.State) :
  exists s', Snake.resolve s = Normal s'.
Proof.
  unfold Snake.resolve.
  destruct (Snake.neutralChinPosition s) as [n|]; simpl.
  - destruct (length (Snake.poseHistory s) =? 0)%nat; simpl; eauto.
  - rewrite orb_true_r. eauto.
Qed.

Lemma snake_processLandmarks_chin (s : Snake.State) (now : Z) (landmarks : list NormalizedLandmark)
    (chin : NormalizedLandmark) :
  nth_error landmarks 152 = Some chin ->
  Snake.processLandmarks s now landmarks
  = Snake.resolve (snakeSampled s now chin).
Proof.
  intros Hchin. unfold Snake.processLandmarks. now rewrite Hchin.
Qed.

(** ** Histories along a run *)

Section Chronology.

Variables State Event : Type.
Variable step : State -> Event -> completion State.
Variable run : State -> list Event -> completion State.
Variable history : State -> list HeadPose.
Variable reading : Event -> list Z.
Variable W : Z.

Hypothesis run_nil : forall s, run s [] = Normal s.
Hypothesis run_cons :
  forall s e rest, run s (e :: rest) = (s1 <- step s e ;; run s1 rest).

(** A callback either leaves the history alone, reading the clock at most
    once, or appends the sample of its one reading and evicts. *)
Hypothesis step_history :
  forall s e s', step s e = Normal s' ->
    (history s' = history s
     /\ (reading e = [] \/ exists now, reading e = [now]))
    \/ (exists now chin,
          reading e = [now]
          /\ history s' = Smoothing.pushAndPrune W now chin (history s)).

Lemma run_chronological (events : list Event) :
  forall s s' future,
    nondecreasing
      (timestamps (history s) ++ flat_map reading events ++ future) ->
    run s events = Normal s' ->
    nondecreasing (timestamps (history s') ++ future).
Proof.
  induction events as [|e rest IH]; intros s s' future Hs Hrun.
  - rewrite run_nil in Hrun. injection Hrun as <-. exact Hs.
  - rewrite run_cons in Hrun.
    destruct (step s e) as [s1|] eqn:Hstep; simpl in Hrun; [|discriminate].
    apply (IH s1 s' future); [|exact Hrun].
    simpl in Hs. rewrite <- app_assoc in Hs.
    destruct (step_history s e s1 Hstep)
      as [[Hsame [Hr|[now Hr]]]|[now [chin [Hr Hpush]]]];
      rewrite Hr in Hs; simpl in Hs.
    + now rewrite Hsame.
    + rewrite Hsame. now apply sorted_drop_middle in Hs.
    + rewrite Hpush. now apply pushAndPrune_sorted.
Qed.

End Chronology.

Lemma breakout_step_history (canvas : Canvas) (s : Breakout.State)
    (e : Breakout.Event) (s' : Breakout.State) :
  Breakout.step canvas s e = Normal s' ->
  (Breakout.poseHistory s' = Breakout.poseHistory s
   /\ (breakoutReading e = [] \/ exists now, breakoutReading e = [now]))
  \/ (exists now chin,
        breakoutReading e = [now]
        /\ Breakout.poseHistory s'
           = Smoothing.pushAndPrune Breakout.SMOOTHING_DURATION now chin
               (Breakout.poseHistory s)).
Proof.
  destruct e as [videoTime now results| |];
    unfold Breakout.step, breakoutReading.
  - unfold Breakout.predictWebcam.
    destruct (negb _); [|intros H; injection H as <-; eauto].
    cbv zeta.
    destruct results as [[[|face faces]]|]; cbn [faceLandmarks];
      try (intros H; injection H as <-; eauto).
    destruct (nth_error face 152) as [chin|] eqn:Hchin.
    + destruct (breakout_processLandmarks_chin canvas
                  (Breakout.set_lastVideoTime videoTime s) now face chin
                  Hchin) as [target [_ Hp]].
      rewrite Hp. intros H; injection H as <-.
      right. exists now, chin. split; reflexivity.
    + unfold Breakout.processLandmarks.
      rewrite Hchin. intros H; injection H as <-. eauto.
  - destruct (Breakout.loopPending s); intros H; injection H as <-.
    + left. split; [|now left].
      pose proof (gameLoop_vision canvas
                    (Breakout.set_loopPending false s)) as Hv.
      now injection Hv.
    + eauto.
  - intros H; injection H as <-. left. split; [|now left].
    pose proof (breakout_startGame_vision canvas s) as Hv.
    now injection Hv.
Qed.

Lemma snake_resolve_history (s s' : Snake.State) :
  Snake.resolve s = Normal s' ->
  snakeVision s' = snakeVision s /\ Snake.direction s' = Snake.direction s
  /\ Snake.gameRunning s' = Snake.gameRunning s.
Proof.
  unfold Snake.resolve.
  destruct (_ || _)%bool; [intros H; injection H as <-; auto|].
  destruct (Snake.neutralChinPosition s) as [n|]; simpl; [|discriminate].
  intros H; injection H as <-. unfold Snake.latchDirection.
  split_ifs; auto.
Qed.

Lemma snake_step_history (canvas : Canvas) (s : Snake.State)
    (e : Snake.Event) (s' : Snake.State) :
  Snake.step canvas s e = Normal s' ->
  (Snake.poseHistory s' = Snake.poseHistory s
   /\ (snakeReading e = [] \/ exists now, snakeReading e = [now]))
  \/ (exists now chin,
        snakeReading e = [now]
        /\ Snake.poseHistory s'
           = Smoothing.pushAndPrune Snake.SMOOTHING_DURATION now chin
               (Snake.poseHistory s)).
Proof.
  destruct e as [videoTime now results|placed|placed];
    unfold Snake.step, snakeReading.
  - unfold Snake.predictWebcam.
    destruct (negb _); [|intros H; injection H as <-; eauto].
    cbv zeta.
    destruct results as [[[|face faces]]|]; cbn [faceLandmarks];
      try (intros H; injection H as <-; eauto).
    unfold Snake.processLandmarks.
    destruct (nth_error face 152) as [chin|] eqn:Hchin.
    + cbv zeta. intros H. apply snake_resolve_history in H.
      destruct H as [Hv _]. injection Hv as Hh _.
      right. exists now, chin. split; [reflexivity|]. now rewrite Hh.
    + intros H; injection H as <-. eauto.
  - destruct (Snake.intervalActive s).
    + unfold Snake.gameLoop. intros H.
      apply snake_update_vision in H. injection H as Hh _. eauto.
    + intros H; injection H as <-. eauto.
  - intros H; injection H as <-. left. split; [|now left].
    unfold Snake.startGame. now destruct (Snake.gameRunning s).
Qed.

Lemma breakout_run_chronological (canvas : Canvas)
    (events : list Breakout.Event) (s s' : Breakout.State)
    (future : list Z) :
  nondecreasing
    (timestamps (Breakout.poseHistory s) ++ breakoutReadings events ++ future)
  ->
  Breakout.run canvas s events = Normal s' ->
  nondecreasing (timestamps (Breakout.poseHistory s') ++ future).
Proof.
  apply (run_chronological _ _ (Breakout.step canvas) (Breakout.run canvas)
           Breakout.poseHistory breakoutReading Breakout.SMOOTHING_DURATION).
  - reflexivity.
  - reflexivity.
  - apply breakout_step_history.
Qed.

Lemma snake_run_chronological (canvas : Canvas)
    (events : list Snake.Event) (s s' : Snake.State) (future : list Z) :
  nondecreasing
    (timestamps (Snake.poseHistory s) ++ snakeReadings events ++ future) ->
  Snake.run canvas s events = Normal s' ->
  nondecreasing (timestamps (Snake.poseHistory s') ++ future).
Proof.
  apply (run_chronological _ _ (Snake.step canvas) (Snake.run canvas)
           Snake.poseHistory snakeReading Snake.SMOOTHING_DURATION).
  - reflexivity.
  - reflexivity.
  - apply snake_step_history.
Qed.

Lemma breakout_initial_history (canvas : Canvas) :
  Breakout.poseHistory (Breakout.initial canvas) = [].
Proof.
  unfold Breakout.initial.
  match goal with
  | |- Breakout.poseHistory (Breakout.draw _ ?s) = _ =>
      pose proof (draw_vision canvas s) as H
  end.
  now injection H.
Qed.

(** ** C1: the recency window *)

(** C1, as amended: in both games, along every run whose clock readings
    never decrease, a frame processed at time [now] leaves no sample in
    the history with a timestamp below [now - SMOOTHING_DURATION]. *)
Theorem history_within_window_under_monotone_clock (canvas : Canvas) :
  (forall events now landmarks chin s,
      nondecreasing (breakoutReadings events ++ [now]) ->
      Breakout.run canvas (Breakout.initial canvas) events = Normal s ->
      nth_error landmarks 152 = Some chin ->
      exists s',
        Breakout.processLandmarks canvas s now landmarks = Normal s'
        /\ withinWindow Breakout.SMOOTHING_DURATION now
             (Breakout.poseHistory s'))
  /\ (forall events now landmarks chin s,
         nondecreasing (snakeReadings events ++ [now]) ->
         Snake.run canvas Snake.initial events = Normal s ->
         nth_error landmarks 152 = Some chin ->
         exists s',
           Snake.processLandmarks s now landmarks = Normal s'
           /\ withinWindow Snake.SMOOTHING_DURATION now
                (Snake.poseHistory s')).
Proof.
  split; intros events now landmarks chin s Hclock Hrun Hchin.
  - assert (Hs : nondecreasing (timestamps (Breakout.poseHistory s) ++ [now])).
    { apply (breakout_run_chronological canvas events
               (Breakout.initial canvas) s [now]); [|exact Hrun].
      now rewrite breakout_initial_history. }
    destruct (breakout_processLandmarks_chin canvas s now landmarks chin
                Hchin) as [target [_ Hp]].
    eexists. split; [exact Hp|]. simpl.
    now apply pushAndPrune_fresh.
  - assert (Hs : nondecreasing (timestamps (Snake.poseHistory s) ++ [now])).
    { apply (snake_run_chronological canvas events Snake.initial s [now]);
        [exact Hclock|exact Hrun]. }
    rewrite (snake_processLandmarks_chin s now landmarks chin Hchin).
    destruct (snake_resolve_total (snakeSampled s now chin)) as [s' Hr].
    exists s'. split; [exact Hr|].
    apply snake_resolve_history in Hr. destruct Hr as [Hv _].
    injection Hv as Hh _. rewrite Hh. simpl.
    now apply pushAndPrune_fresh.
Qed.

Lemma history_within_window_witness :
  (exists s s',
      Breakout.run canvas520 (Breakout.initial canvas520)
        [breakoutFrame 1 1000 0.5 0.5] = Normal s
      /\ Breakout.processLandmarks canvas520 s 1100
           (faceWith (chinAt 0.5 0.5)) = Normal s'
      /\ withinWindow Breakout.SMOOTHING_DURATION 1100
           (Breakout.poseHistory s'))
  /\ (exists s s',
         Snake.run canvas520 Snake.initial [snakeFrame 1 1000 0.5 0.5]
         = Normal s
         /\ Snake.processLandmarks s 1100 (faceWith (chinAt 0.5 0.5))
            = Normal s'
         /\ withinWindow Snake.SMOOTHING_DURATION 1100
              (Snake.poseHistory s')).
Proof.
  split.
  - destruct (Breakout.run canvas520 (Breakout.initial canvas520)
                [breakoutFrame 1 1000 0.5 0.5]) as [s|] eqn:Hrun;
      [|vm_compute in Hrun; discriminate].
    destruct (proj1 (history_within_window_under_monotone_clock canvas520)
                [breakoutFrame 1 1000 0.5 0.5] 1100%Z
                (faceWith (chinAt 0.5 0.5)) (chinAt 0.5 0.5) s)
      as [s' [Hp Hw]].
    + repeat constructor; simpl; lia.
    + exact Hrun.
    + reflexivity.
    + exists s, s'. auto.
  - destruct (Snake.run canvas520 Snake.initial
                [snakeFrame 1 1000 0.5 0.5]) as [s|] eqn:Hrun;
      [|vm_compute in Hrun; discriminate].
    destruct (proj2 (history_within_window_under_monotone_clock canvas520)
                [snakeFrame 1 1000 0.5 0.5] 1100%Z
                (faceWith (chinAt 0.5 0.5)) (chinAt 0.5 0.5) s)
      as [s' [Hp Hw]].
    + repeat constructor; simpl; lia.
    + exact Hrun.
    + reflexivity.
    + exists s, s'. auto.
Defined.

(** C1, as stated, fails when the clock steps back: samples stamped 100
    and then 50 are both in the history when a frame arrives at 300, the
    loop stops at the head (100 is not below the cutoff 100), and the
    sample stamped 50 stays. *)
Lemma stale_sample_survives_backward_clock :
  exists s,
    Breakout.run canvas520 (Breakout.initial canvas520)
      [breakoutFrame 1 100 0.5 0.5; breakoutFrame 2 50 0.5 0.5;
       breakoutFrame 3 300 0.5 0.5] = Normal s
    /\ ~ withinWindow Breakout.SMOOTHING_DURATION 300 (Breakout.poseHistory s).
Proof.
  eexists. split; [vm_compute; reflexivity|].
  unfold withinWindow. simpl. intros H.
  inversion H as [|? ? _ H1]; subst.
  inversion H1 as [|? ? H2 _]; subst.
  simpl in H2. unfold Breakout.SMOOTHING_DURATION in H2. lia.
Qed.

(** ** C10: the sample just appended is never evicted *)

(** C10: in both games, whenever [processLandmarks] appends (the face has
    a landmark 152), the history it tests right after the eviction loop
    ends with the sample just pushed, so its length is not 0: the paddle
    game always goes on to the paddle assignment and the snake game
    always hands the sampled state to the rest of the function. *)
Theorem appended_sample_is_retained (canvas : Canvas) (now : Z)
    (landmarks : list NormalizedLandmark) (chin : NormalizedLandmark) :
  nth_error landmarks 152 = Some chin ->
  (forall s,
      (exists older,
          Breakout.poseHistory (breakoutSampled s now chin)
          = older ++ [sampleOf now chin])
      /\ (length (Breakout.poseHistory (breakoutSampled s now chin)) =? 0)%nat
         = false
      /\ exists target,
           Breakout.processLandmarks canvas s now landmarks
           = Normal (Breakout.set_paddleX
                       (Breakout.clampPaddle canvas
                          (Breakout.ease (Breakout.paddleX s) target))
                       (breakoutSampled s now chin)))
  /\ (forall s,
         (exists older,
             Snake.poseHistory (snakeSampled s now chin)
             = older ++ [sampleOf now chin])
         /\ (length (Snake.poseHistory (snakeSampled s now chin)) =? 0)%nat
            = false
         /\ exists s',
              Snake.processLandmarks s now landmarks = Normal s'
              /\ exists older,
                   Snake.poseHistory s' = older ++ [sampleOf now chin]).
Proof.
  intros Hchin. split; intros s.
  - destruct (pushAndPrune_keeps_sample Breakout.SMOOTHING_DURATION now chin
                (Breakout.poseHistory s)) as [older Ho];
      [unfold Breakout.SMOOTHING_DURATION; lia|].
    split; [exists older; exact Ho|].
    split; [simpl; rewrite Ho; apply length_eqb_0_snoc|].
    destruct (breakout_processLandmarks_chin canvas s now landmarks chin
                Hchin) as [target [_ Hp]].
    now exists target.
  - destruct (pushAndPrune_keeps_sample Snake.SMOOTHING_DURATION now chin
                (Snake.poseHistory s)) as [older Ho];
      [unfold Snake.SMOOTHING_DURATION; lia|].
    split; [exists older; exact Ho|].
    split; [simpl; rewrite Ho; apply length_eqb_0_snoc|].
    rewrite (snake_processLandmarks_chin s now landmarks chin Hchin).
    destruct (snake_resolve_total (snakeSampled s now chin)) as [s' Hr].
    exists s'. split; [exact Hr|].
    apply snake_resolve_history in Hr. destruct Hr as [Hv _].
    injection Hv as Hh _. rewrite Hh. exists older. exact Ho.
Qed.

Lemma appended_sample_is_retained_witness :
  (exists older,
      Breakout.poseHistory
        (breakoutSampled (Breakout.initial canvas520) 1000 (chinAt 0.5 0.5))
      = older ++ [sampleOf 1000 (chinAt 0.5 0.5)])
  /\ (exists older,
         Snake.poseHistory (snakeSampled Snake.initial 1000 (chinAt 0.5 0.5))
         = older ++ [sampleOf 1000 (chinAt 0.5 0.5)]).
Proof.
  pose proof (appended_sample_is_retained canvas520 1000
                (faceWith (chinAt 0.5 0.5)) (chinAt 0.5 0.5) eq_refl)
    as [Hb Hs].
  split.
  - exact (proj1 (Hb (Breakout.initial canvas520))).
  - exact (proj1 (Hs Snake.initial)).
Defined.

(** ** C3: the calibration latch *)

(** C3: in both games, a processed sample sets [neutralChinPosition] to
    the sample's (x, y) exactly when the game is running and no neutral
    position is set; in every other case it is left as it was. The
    session flag itself is never changed by a sample. *)
Theorem neutral_calibration_is_one_shot (canvas : Canvas) (now : Z)
    (landmarks : list NormalizedLandmark) (chin : NormalizedLandmark) :
  nth_error landmarks 152 = Some chin ->
  (forall s, exists s',
      Breakout.processLandmarks canvas s now landmarks = Normal s'
      /\ Breakout.neutralChinPosition s'
         = latched (Breakout.gameRunning s) (Breakout.neutralChinPosition s)
             chin
      /\ Breakout.gameRunning s' = Breakout.gameRunning s)
  /\ (forall s, exists s',
         Snake.processLandmarks s now landmarks = Normal s'
         /\ Snake.neutralChinPosition s'
            = latched (Snake.gameRunning s) (Snake.neutralChinPosition s) chin
         /\ Snake.gameRunning s' = Snake.gameRunning s).
Proof.
  intros Hchin. split; intros s.
  - destruct (breakout_processLandmarks_chin canvas s now landmarks chin
                Hchin) as [target [_ Hp]].
    eexists. split; [exact Hp|]. simpl. split; [|reflexivity].
    unfold Smoothing.calibrate, latched.
    now destruct (Breakout.gameRunning s),
      (Breakout.neutralChinPosition s).
  - rewrite (snake_processLandmarks_chin s now landmarks chin Hchin).
    destruct (snake_resolve_total (snakeSampled s now chin)) as [s' Hr].
    exists s'. split; [exact Hr|].
    apply snake_resolve_history in Hr. destruct Hr as [Hv [_ Hg]].
    injection Hv as _ Hn. rewrite Hn, Hg. simpl. split; [|reflexivity].
    unfold Smoothing.calibrate, latched.
    now destruct (Snake.gameRunning s), (Snake.neutralChinPosition s).
Qed.

Lemma neutral_calibration_witness :
  exists s',
    Breakout.processLandmarks canvas520
      (Breakout.startGame canvas520 (Breakout.initial canvas520)) 1000
      (faceWith (chinAt 0.5 0.5)) = Normal s'
    /\ Breakout.neutralChinPosition s' = Some (mkPoint 0.5 0.5).
Proof.
  destruct (proj1 (neutral_calibration_is_one_shot canvas520 1000
                     (faceWith (chinAt 0.5 0.5)) (chinAt 0.5 0.5) eq_refl)
              (Breakout.startGame canvas520 (Breakout.initial canvas520)))
    as [s' [Hp [Hn _]]].
  exists s'. split; [exact Hp|]. rewrite Hn. vm_compute. reflexivity.
Defined.

(** ** C4: what a (re)start resets *)

(** C4, as amended: when a session (re)starts, [neutralChinPosition]
    becomes [null] and [poseHistory] is left exactly as it was. This holds
    for [resetGame] in both games, for every start click of the paddle
    game, and for a start click of the snake game while no game is
    running; a start click while the snake game is running changes
    nothing. *)
Theorem restart_clears_neutral_and_keeps_history (canvas : Canvas) :
  (forall s,
      Breakout.neutralChinPosition (Breakout.resetGame canvas s) = None
      /\ Breakout.poseHistory (Breakout.resetGame canvas s)
         = Breakout.poseHistory s)
  /\ (forall s,
         Breakout.neutralChinPosition (Breakout.startGame canvas s) = None
         /\ Breakout.poseHistory (Breakout.startGame canvas s)
            = Breakout.poseHistory s)
  /\ (forall placed s,
         Snake.neutralChinPosition (Snake.resetGame placed s) = None
         /\ Snake.poseHistory (Snake.resetGame placed s)
            = Snake.poseHistory s)
  /\ (forall placed s,
         if Snake.gameRunning s then Snake.startGame s placed = s
         else Snake.neutralChinPosition (Snake.startGame s placed) = None
              /\ Snake.poseHistory (Snake.startGame s placed)
                 = Snake.poseHistory s).
Proof.
  split; [|split; [|split]].
  - intros s. split; reflexivity.
  - intros s. pose proof (breakout_startGame_vision canvas s) as H.
    injection H as Hh Hn. now split.
  - intros placed s. split; reflexivity.
  - intros placed s. unfold Snake.startGame.
    destruct (Snake.gameRunning s); [reflexivity|split; reflexivity].
Qed.

(** C4, as stated, fails: a sample recorded before the start click is
    still in the history after it, in both games. *)
Lemma history_survives_restart :
  (exists s,
      Breakout.run canvas520 (Breakout.initial canvas520)
        [breakoutFrame 1 1000 0.5 0.5; Breakout.StartClicked] = Normal s
      /\ Breakout.poseHistory s = [mkHeadPose 1000 0.5 0.5]
      /\ ~ (Breakout.poseHistory s = []
            /\ Breakout.neutralChinPosition s = None))
  /\ (exists s,
         Snake.run canvas520 Snake.initial
           [snakeFrame 1 1000 0.5 0.5; Snake.StartClicked (Snake.mkCell 3 4)]
         = Normal s
         /\ Snake.poseHistory s = [mkHeadPose 1000 0.5 0.5]
         /\ ~ (Snake.poseHistory s = []
               /\ Snake.neutralChinPosition s = None)).
Proof.
  split; eexists; (split; [vm_compute; reflexivity|]);
    (split; [reflexivity|]); simpl; intros [H _]; discriminate.
Qed.

(** ** C5: aim-assist *)

(** C5: while the game runs, the ball is coming down ([ballDY > 0]), a
    neutral position exists and the ball moves right ([ballDX > 0]), the
    target is [ballX - paddleWidth / 2] when the player is classified
    [Right] and [(1 - avgX) * gameCanvas.width - paddleWidth / 2] when
    the player is classified [Left] or not at all; a processed frame
    eases the paddle toward that target and clamps it. *)
Theorem aim_assist_snaps_to_ball (canvas : Canvas) (s : Breakout.State)
    (neutral : Point) :
  Breakout.gameRunning s = true ->
  (0 <? Breakout.ballDY s)%float = true ->
  Breakout.neutralChinPosition s = Some neutral ->
  (0 <? Breakout.ballDX s)%float = true ->
  (forall avgX,
      Breakout.targetPaddleX canvas s avgX
      = Normal (assistedTarget canvas s neutral avgX))
  /\ (forall now landmarks chin,
         nth_error landmarks 152 = Some chin ->
         Breakout.processLandmarks canvas s now landmarks
         = Normal
             (Breakout.set_paddleX
                (Breakout.clampPaddle canvas
                   (Breakout.ease (Breakout.paddleX s)
                      (assistedTarget canvas s neutral
                         (Smoothing.averageX
                            (Breakout.poseHistory
                               (breakoutSampled s now chin))))))
                (breakoutSampled s now chin))).
Proof.
  intros Hrun Hdy Hn Hdx.
  assert (Ht : forall s0 avgX,
             Breakout.gameRunning s0 = true ->
             Breakout.ballDY s0 = Breakout.ballDY s ->
             Breakout.ballDX s0 = Breakout.ballDX s ->
             Breakout.ballX s0 = Breakout.ballX s ->
             Breakout.neutralChinPosition s0 = Some neutral ->
             Breakout.targetPaddleX canvas s0 avgX
             = Normal (assistedTarget canvas s neutral avgX)).
  { intros s0 avgX H1 H2 H3 H4 H5.
    unfold Breakout.targetPaddleX, assistedTarget, Breakout.requiredDirection,
      Breakout.directControl.
    rewrite H1, H2, H3, H4, H5, Hdy, Hdx. simpl.
    now destruct (Breakout.userDirection (avgX - px neutral)). }
  split.
  - intros avgX. now apply Ht.
  - intros now landmarks chin Hchin.
    destruct (breakout_processLandmarks_chin canvas s now landmarks chin
                Hchin) as [target [Htarget Hp]].
    rewrite Hp. rewrite Ht in Htarget; try reflexivity.
    + now injection Htarget as <-.
    + exact Hrun.
    + simpl. rewrite Hn, Hrun. reflexivity.
Qed.

Lemma aim_assist_witness :
  Breakout.targetPaddleX canvas520 ballComingDownRight 0.4 = Normal 240%float
  /\ Breakout.targetPaddleX canvas520 ballComingDownRight 0.6
     = Normal 148%float.
Proof.
  pose proof (proj1 (aim_assist_snaps_to_ball canvas520 ballComingDownRight
                       (mkPoint 0.5 0.5) eq_refl eq_refl eq_refl eq_refl))
    as H.
  split; rewrite H; vm_compute; reflexivity.
Defined.

(** ** C6: frames that arrive while no session is active *)

(** C6, as amended: the session flag gates only the calibration latch
    (and the aim-assist of the paddle game). A new video frame with a face
    that is processed while [gameRunning] is false still appends its
    sample and evicts; the paddle game then eases the paddle toward the
    direct-control target, and the snake game runs its resolver on the
    sampled state (which latches a pending heading if a neutral position
    is left from the session and returns at once if there is none). The
    flag, the neutral position and the committed heading do not change. *)
Theorem inactive_session_still_samples (canvas : Canvas)
    (videoTime : float) (now : Z) (face : list NormalizedLandmark)
    (faces : list (list NormalizedLandmark)) (chin : NormalizedLandmark) :
  nth_error face 152 = Some chin ->
  (forall s,
      Breakout.gameRunning s = false ->
      (videoTime =? Breakout.lastVideoTime s)%float = false ->
      exists s',
        Breakout.predictWebcam canvas s videoTime now
          (Some (mkResult (face :: faces))) = Normal s'
        /\ Breakout.poseHistory s'
           = Smoothing.pushAndPrune Breakout.SMOOTHING_DURATION now chin
               (Breakout.poseHistory s)
        /\ Breakout.paddleX s'
           = Breakout.clampPaddle canvas
               (Breakout.ease (Breakout.paddleX s)
                  (Breakout.directControl canvas
                     (Smoothing.averageX (Breakout.poseHistory s'))))
        /\ Breakout.gameRunning s' = false
        /\ Breakout.neutralChinPosition s' = Breakout.neutralChinPosition s)
  /\ (forall s,
         Snake.gameRunning s = false ->
         (videoTime =? Snake.lastVideoTime s)%float = false ->
         exists s',
           Snake.predictWebcam s videoTime now
             (Some (mkResult (face :: faces))) = Normal s'
           /\ Snake.resolve
                (snakeSampled (Snake.set_lastVideoTime videoTime s) now chin)
              = Normal s'
           /\ Snake.poseHistory s'
              = Smoothing.pushAndPrune Snake.SMOOTHING_DURATION now chin
                  (Snake.poseHistory s)
           /\ Snake.gameRunning s' = false
           /\ Snake.neutralChinPosition s' = Snake.neutralChinPosition s
           /\ Snake.direction s' = Snake.direction s).
Proof.
  intros Hchin. split; intros s Hidle Hnew.
  - unfold Breakout.predictWebcam. rewrite Hnew. cbn [negb faceLandmarks].
    cbv zeta.
    destruct (breakout_processLandmarks_chin canvas
                (Breakout.set_lastVideoTime videoTime s) now face chin Hchin)
      as [target [Ht Hp]].
    rewrite targetPaddleX_not_running in Ht by (simpl; exact Hidle).
    injection Ht as <-.
    eexists. split; [exact Hp|]. simpl.
    rewrite Hidle. repeat split; reflexivity.
  - unfold Snake.predictWebcam. rewrite Hnew. cbn [negb faceLandmarks].
    cbv zeta.
    rewrite (snake_processLandmarks_chin _ now face chin Hchin).
    destruct (snake_resolve_total
                (snakeSampled (Snake.set_lastVideoTime videoTime s) now chin))
      as [s' Hr].
    exists s'. split; [exact Hr|]. split; [exact Hr|].
    apply snake_resolve_history in Hr. destruct Hr as [Hv [Hd Hg]].
    injection Hv as Hh Hn. rewrite Hh, Hn, Hd, Hg. simpl.
    rewrite Hidle. repeat split; reflexivity.
Qed.

Lemma inactive_session_witness :
  exists s',
    Breakout.predictWebcam canvas520 (Breakout.initial canvas520) 1 1000
      (Some (mkResult [faceWith (chinAt 0.5 0.5)])) = Normal s'
    /\ Breakout.poseHistory s' = [mkHeadPose 1000 0.5 0.5].
Proof.
  destruct (proj1 (inactive_session_still_samples canvas520 1 1000
                     (faceWith (chinAt 0.5 0.5)) [] (chinAt 0.5 0.5) eq_refl)
              (Breakout.initial canvas520) eq_refl eq_refl)
    as [s' [Hp [Hh _]]].
  exists s'. split; [exact Hp|]. rewrite Hh. reflexivity.
Defined.

(** C6, as stated, fails. Paddle game: after a session is started, fed
    one frame and stopped, the next frame still appends a second sample
    and moves the paddle. Snake game: after the same steps a frame with
    the head far to one side changes the pending heading. *)
Lemma stopped_session_still_appends :
  (exists s s',
      Breakout.run canvas520 (Breakout.initial canvas520)
        [Breakout.StartClicked; breakoutFrame 1 1000 0.5 0.5] = Normal s
      /\ Breakout.gameRunning (Breakout.endGame s) = false
      /\ Breakout.predictWebcam canvas520 (Breakout.endGame s) 2 1100
           (detected (chinAt 0.8 0.5)) = Normal s'
      /\ timestamps (Breakout.poseHistory (Breakout.endGame s)) = [1000%Z]
      /\ timestamps (Breakout.poseHistory s') = [1000%Z; 1100%Z]
      /\ (Breakout.paddleX s' =? Breakout.paddleX (Breakout.endGame s))%float
         = false)
  /\ (exists s s',
         Snake.run canvas520 Snake.initial
           [Snake.StartClicked (Snake.mkCell 3 4);
            snakeFrame 1 1000 0.5 0.5] = Normal s
         /\ Snake.gameRunning (Snake.endGame s) = false
         /\ Snake.predictWebcam (Snake.endGame s) 2 1100
              (detected (chinAt 0.5 0.9)) = Normal s'
         /\ timestamps (Snake.poseHistory s') = [1000%Z; 1100%Z]
         /\ Snake.newDirection (Snake.endGame s) = Snake.Right
         /\ Snake.newDirection s' = Snake.Down).
Proof.
  split; eexists; eexists;
    (split; [vm_compute; reflexivity|]);
    (split; [reflexivity|]);
    (split; [vm_compute; reflexivity|]);
    repeat split; vm_compute; reflexivity.
Qed.

(** ** C7: the dead zone of the snake game *)

Lemma shiftOld_all_old (cutoff : Z) (h : list HeadPose) (p : HeadPose) :
  Forall (fun q => (timestamp q < cutoff)%Z) h ->
  (cutoff <= timestamp p)%Z ->
  Smoothing.shiftOld cutoff (h ++ [p]) = [p].
Proof.
  intros Hold Hp. induction Hold as [|q rest Hq _ IH]; simpl.
  - apply Z.ltb_ge in Hp. now rewrite Hp.
  - apply Z.ltb_lt in Hq. now rewrite Hq.
Qed.

Lemma calibrate_keeps_neutral (gameRunning : bool)
    (chin : NormalizedLandmark) (neutral : Point) :
  Smoothing.calibrate gameRunning chin (Some neutral) = Some neutral.
Proof. unfold Smoothing.calibrate. simpl. now rewrite andb_false_r. Qed.

(** C7: with the neutral position at (0.5, 0.5) and a frame at time [t]
    whose chin is at (0.52, 0.5), every older sample being out of the
    window, the window is the single sample (t, 0.52, 0.5); the computed
    hDiff is 0.52 - 0.5 (0.02 up to rounding), below the horizontal
    threshold 0.03, and vDiff is 0: no comparison fires and the pending
    heading is left as it was, whatever the committed heading. *)
Theorem dead_zone_leaves_pending_heading (t : Z) (s : Snake.State)
    (landmarks : list NormalizedLandmark) (z : float) :
  nth_error landmarks 152 = Some (mkLandmark 0.52 0.5 z) ->
  Snake.neutralChinPosition s = Some (mkPoint 0.5 0.5) ->
  Forall (fun p => (timestamp p < t - Snake.SMOOTHING_DURATION)%Z)
    (Snake.poseHistory s) ->
  exists s',
    Snake.processLandmarks s t landmarks = Normal s'
    /\ Snake.poseHistory s' = [mkHeadPose t 0.52 0.5]
    /\ Snake.newDirection s' = Snake.newDirection s
    /\ Snake.direction s' = Snake.direction s
    /\ (let hDiff := (Smoothing.averageX (Snake.poseHistory s') - 0.5)%float in
        let vDiff := (Smoothing.averageY (Snake.poseHistory s') - 0.5)%float in
        (hDiff <? Snake.horizontalThreshold)%float = true
        /\ (0.02 <=? hDiff)%float = true
        /\ (hDiff <? 0.0200000000000001)%float = true
        /\ (vDiff =? 0)%float = true).
Proof.
  intros Hchin Hn Hold.
  rewrite (snake_processLandmarks_chin s t landmarks _ Hchin).
  assert (Hh : Snake.poseHistory
                 (snakeSampled s t (mkLandmark 0.52 0.5 z))
               = [mkHeadPose t 0.52 0.5]).
  { simpl. unfold Smoothing.pushAndPrune. simpl lm_x. simpl lm_y.
    apply shiftOld_all_old; [exact Hold|]. simpl.
    unfold Snake.SMOOTHING_DURATION. lia. }
  exists (snakeSampled s t (mkLandmark 0.52 0.5 z)).
  split.
  - unfold Snake.resolve. rewrite Hh.
    replace (Snake.neutralChinPosition
               (snakeSampled s t (mkLandmark 0.52 0.5 z)))
      with (Some (mkPoint 0.5 0.5))
      by (simpl; rewrite Hn; symmetry; apply calibrate_keeps_neutral).
    reflexivity.
  - rewrite Hh. repeat split; vm_compute; reflexivity.
Qed.

Lemma dead_zone_witness :
  exists s',
    Snake.processLandmarks calibratedSnake 3000 (faceWith (chinAt 0.52 0.5))
    = Normal s'
    /\ Snake.newDirection s' = Snake.Up.
Proof.
  destruct (dead_zone_leaves_pending_heading 3000 calibratedSnake
              (faceWith (chinAt 0.52 0.5)) 0 eq_refl eq_refl)
    as [s' [Hp [_ [Hnd _]]]].
  - repeat constructor.
  - exists s'. split; [exact Hp|]. rewrite Hnd. reflexivity.
Defined.

(** ** C8: easing *)

(** C8: [position += (target - position) * 0.2] in binary64 arithmetic
    takes 100 to exactly 120 and then to exactly 136 when the target is
    200; on a 520-pixel canvas with the chin at x = 0.5 (direct-control
    target exactly 200) two processed frames move the paddle from 100 to
    120 and to 136, the clamp leaving both values alone. *)
Theorem easing_from_100_toward_200 :
  Breakout.ease 100 200 = 120%float
  /\ Breakout.ease (Breakout.ease 100 200) 200 = 136%float
  /\ Breakout.directControl canvas520 0.5 = 200%float
  /\ exists s1 s2,
       Breakout.processLandmarks canvas520
         (Breakout.set_paddleX 100 (Breakout.initial canvas520)) 1000
         (faceWith (chinAt 0.5 0.5)) = Normal s1
       /\ Breakout.paddleX s1 = 120%float
       /\ Breakout.processLandmarks canvas520 s1 1016
            (faceWith (chinAt 0.5 0.5)) = Normal s2
       /\ Breakout.paddleX s2 = 136%float.
Proof.
  repeat split; try (vm_compute; reflexivity).
  eexists. eexists.
  split; [vm_compute; reflexivity|].
  split; [reflexivity|].
  split; vm_compute; reflexivity.
Qed.

(** ** C9: the resolver without a neutral position *)

Lemma snake_resolve_without_neutral (s : Snake.State) :
  Snake.neutralChinPosition s = None -> Snake.resolve s = Normal s.
Proof.
  intros H. unfold Snake.resolve. rewrite H. simpl.
  now rewrite orb_true_r.
Qed.

(** C9: [processLandmarks] never throws, in either game and in any state.
    When the resolver runs with no neutral position, the paddle game
    takes the direct-control target and the snake game returns at once;
    for a whole frame (no game running, no neutral position) this means
    the paddle is eased toward the direct-control target, and the
    pending and the committed heading of the snake are left unchanged. *)
Theorem resolver_without_neutral_is_safe (canvas : Canvas) :
  (forall s now landmarks,
      exists s', Breakout.processLandmarks canvas s now landmarks = Normal s')
  /\ (forall s now landmarks,
         exists s', Snake.processLandmarks s now landmarks = Normal s')
  /\ (forall s avgX,
         Breakout.neutralChinPosition s = None ->
         Breakout.targetPaddleX canvas s avgX
         = Normal ((1 - avgX) * width canvas - Breakout.paddleWidth / 2)%float)
  /\ (forall s,
         Snake.neutralChinPosition s = None -> Snake.resolve s = Normal s)
  /\ (forall s now landmarks chin,
         nth_error landmarks 152 = Some chin ->
         Breakout.gameRunning s = false ->
         Breakout.neutralChinPosition s = None ->
         Breakout.processLandmarks canvas s now landmarks
         = Normal
             (Breakout.set_paddleX
                (Breakout.clampPaddle canvas
                   (Breakout.ease (Breakout.paddleX s)
                      (Breakout.directControl canvas
                         (Smoothing.averageX
                            (Breakout.poseHistory
                               (breakoutSampled s now chin))))))
                (breakoutSampled s now chin)))
  /\ (forall s now landmarks chin,
         nth_error landmarks 152 = Some chin ->
         Snake.gameRunning s = false ->
         Snake.neutralChinPosition s = None ->
         exists s',
           Snake.processLandmarks s now landmarks = Normal s'
           /\ Snake.newDirection s' = Snake.newDirection s
           /\ Snake.direction s' = Snake.direction s
           /\ Snake.neutralChinPosition s' = None).
Proof.
  split; [|split; [|split; [|split; [|split]]]].
  - intros s now landmarks.
    destruct (nth_error landmarks 152) as [chin|] eqn:Hchin.
    + destruct (breakout_processLandmarks_chin canvas s now landmarks chin
                  Hchin) as [target [_ Hp]]. eauto.
    + unfold Breakout.processLandmarks. rewrite Hchin. eauto.
  - intros s now landmarks.
    destruct (nth_error landmarks 152) as [chin|] eqn:Hchin.
    + rewrite (snake_processLandmarks_chin s now landmarks chin Hchin).
      apply snake_resolve_total.
    + unfold Snake.processLandmarks. rewrite Hchin. eauto.
  - intros s avgX Hn. now apply targetPaddleX_without_neutral.
  - exact snake_resolve_without_neutral.
  - intros s now landmarks chin Hchin Hidle Hn.
    destruct (breakout_processLandmarks_chin canvas s now landmarks chin
                Hchin) as [target [Ht Hp]].
    rewrite targetPaddleX_without_neutral in Ht
      by (simpl; rewrite Hidle, Hn; reflexivity).
    injection Ht as <-. exact Hp.
  - intros s now landmarks chin Hchin Hidle Hn.
    exists (snakeSampled s now chin).
    rewrite (snake_processLandmarks_chin s now landmarks chin Hchin).
    assert (Hnone : Snake.neutralChinPosition (snakeSampled s now chin)
                    = None)
      by (simpl; rewrite Hidle, Hn; reflexivity).
    split; [now apply snake_resolve_without_neutral|].
    repeat split. exact Hnone.
Qed.

Lemma resolver_without_neutral_witness :
  Breakout.targetPaddleX canvas520 (Breakout.initial canvas520) 0.5
  = Normal 200%float
  /\ Snake.resolve Snake.initial = Normal Snake.initial
  /\ exists s',
       Snake.processLandmarks Snake.initial 1000 (faceWith (chinAt 0.9 0.9))
       = Normal s'
       /\ Snake.newDirection s' = Snake.Right
       /\ Snake.direction s' = Snake.Right.
Proof.
  pose proof (resolver_without_neutral_is_safe canvas520)
    as [_ [_ [Hb [Hs [_ Hf]]]]].
  split; [|split].
  - rewrite (Hb (Breakout.initial canvas520) 0.5%float eq_refl).
    vm_compute. reflexivity.
  - exact (Hs Snake.initial eq_refl).
  - destruct (Hf Snake.initial 1000%Z (faceWith (chinAt 0.9 0.9))
                (chinAt 0.9 0.9) eq_refl eq_refl eq_refl)
      as [s' [Hp [Hnd [Hd _]]]].
    exists s'. split; [exact Hp|]. rewrite Hnd, Hd. split; reflexivity.
Defined.

(** ** C2: no reversal of the snake *)

Lemma latchDirection_not_reverse (s : Snake.State) (hDiff vDiff : float) :
  Snake.direction (Snake.latchDirection s hDiff vDiff) = Snake.direction s
  /\ Snake.snake (Snake.latchDirection s hDiff vDiff) = Snake.snake s
  /\ (Snake.newDirection (Snake.latchDirection s hDiff vDiff)
      = Snake.newDirection s
      \/ Snake.newDirection (Snake.latchDirection s hDiff vDiff)
         <> Snake.reverse (Snake.direction s)).
Proof.
  unfold Snake.latchDirection.
  destruct (Snake.direction s) eqn:Hd;
    destruct (Snake.horizontalThreshold <? hDiff)%float,
      (hDiff <? - Snake.horizontalThreshold)%float,
      (vDiff <? - Snake.verticalThreshold)%float,
      (Snake.verticalThreshold <? vDiff)%float;
    simpl; rewrite ?Hd;
    (split; [reflexivity|split; [reflexivity|]]);
    first [left; reflexivity | right; discriminate].
Qed.

Lemma resolve_not_reverse (s s' : Snake.State) :
  Snake.resolve s = Normal s' ->
  Snake.direction s' = Snake.direction s
  /\ Snake.snake s' = Snake.snake s
  /\ (Snake.newDirection s' = Snake.newDirection s
      \/ Snake.newDirection s' <> Snake.reverse (Snake.direction s)).
Proof.
  unfold Snake.resolve.
  destruct (_ || _)%bool; [intros H; injection H as <-; auto|].
  destruct (Snake.neutralChinPosition s) as [n|]; simpl; [|discriminate].
  intros H; injection H as <-. apply latchDirection_not_reverse.
Qed.

Lemma processLandmarks_not_reverse (s : Snake.State) (now : Z)
    (landmarks : list NormalizedLandmark) :
  exists s',
    Snake.processLandmarks s now landmarks = Normal s'
    /\ Snake.direction s' = Snake.direction s
    /\ Snake.snake s' = Snake.snake s
    /\ (Snake.newDirection s' = Snake.newDirection s
        \/ Snake.newDirection s' <> Snake.reverse (Snake.direction s)).
Proof.
  destruct (nth_error landmarks 152) as [chin|] eqn:Hchin.
  - rewrite (snake_processLandmarks_chin s now landmarks chin Hchin).
    destruct (snake_resolve_total (snakeSampled s now chin)) as [s' Hr].
    exists s'. split; [exact Hr|]. now apply resolve_not_reverse in Hr.
  - unfold Snake.processLandmarks. rewrite Hchin. eauto 6.
Qed.

Lemma reverse_irreflexive (d : Snake.Direction) : d <> Snake.reverse d.
Proof. now destruct d. Qed.

(** A tick commits the pending heading and keeps a first segment. *)
Lemma update_commits (canvas : Canvas) (s : Snake.State)
    (placed : Snake.Cell) :
  Snake.snake s <> [] ->
  exists s',
    Snake.update canvas s placed = Normal s'
    /\ Snake.direction s' = Snake.newDirection s
    /\ Snake.newDirection s' = Snake.newDirection s
    /\ Snake.snake s' <> [].
Proof.
  intros Hsnake. unfold Snake.update. cbv zeta.
  destruct (Snake.snake s) as [|first rest] eqn:Hs; [congruence|].
  simpl Snake.snake. rewrite Hs. simpl.
  split_ifs; eexists; (split; [reflexivity|]); simpl;
    repeat split; try rewrite Hs; try discriminate;
    destruct rest; discriminate.
Qed.

Lemma step_turnable (canvas : Canvas) (s : Snake.State) (e : Snake.Event) :
  turnable s ->
  exists s', Snake.step canvas s e = Normal s' /\ turnable s'.
Proof.
  intros [Hrev Hsnake]. destruct e as [videoTime now results|placed|placed];
    unfold Snake.step.
  - unfold Snake.predictWebcam.
    destruct (negb _); [|exists s; now repeat split].
    cbv zeta.
    destruct results as [[[|face faces]]|]; cbn [faceLandmarks];
      try (eexists; split; [reflexivity|]; now split).
    destruct (processLandmarks_not_reverse
                (Snake.set_lastVideoTime videoTime s) now face)
      as [s' [Hp [Hd [Hsn Hnd]]]].
    exists s'. split; [exact Hp|]. unfold turnable. rewrite Hd, Hsn.
    split; [|exact Hsnake]. simpl in *. destruct Hnd as [Hnd|Hnd].
    + now rewrite Hnd.
    + exact Hnd.
  - destruct (Snake.intervalActive s); [|exists s; now repeat split].
    destruct (update_commits canvas s placed Hsnake)
      as [s' [Hu [Hd [Hnd Hsn]]]].
    exists s'. split; [exact Hu|]. split; [|exact Hsn].
    rewrite Hd, Hnd. apply reverse_irreflexive.
  - eexists. split; [reflexivity|]. unfold Snake.startGame.
    destruct (Snake.gameRunning s); [now split|].
    split; simpl; discriminate.
Qed.

Lemma run_turnable (canvas : Canvas) (events : list Snake.Event) :
  forall s, turnable s ->
  exists s', Snake.run canvas s events = Normal s' /\ turnable s'.
Proof.
  induction events as [|e rest IH]; intros s Hs; simpl.
  - now exists s.
  - destruct (step_turnable canvas s e Hs) as [s1 [Hstep H1]].
    rewrite Hstep. simpl. now apply IH.
Qed.

(** C2: whatever the signal, the comparisons of [processLandmarks] never
    replace the pending heading by the reverse of the committed heading;
    hence from the initial page, after any sequence of callbacks, the
    pending heading is not the reverse of the committed one, and the tick
    that follows commits a heading that is not the reverse of the heading
    committed before it. *)
Theorem reverse_heading_is_never_latched (canvas : Canvas) :
  (forall s hDiff vDiff,
      Snake.direction (Snake.latchDirection s hDiff vDiff) = Snake.direction s
      /\ (Snake.newDirection (Snake.latchDirection s hDiff vDiff)
          = Snake.newDirection s
          \/ Snake.newDirection (Snake.latchDirection s hDiff vDiff)
             <> Snake.reverse (Snake.direction s)))
  /\ (forall s now landmarks, exists s',
         Snake.processLandmarks s now landmarks = Normal s'
         /\ Snake.direction s' = Snake.direction s
         /\ (Snake.newDirection s' = Snake.newDirection s
             \/ Snake.newDirection s' <> Snake.reverse (Snake.direction s)))
  /\ (forall events, exists s,
         Snake.run canvas Snake.initial events = Normal s
         /\ Snake.newDirection s <> Snake.reverse (Snake.direction s)
         /\ forall placed, exists s',
              Snake.update canvas s placed = Normal s'
              /\ Snake.direction s' = Snake.newDirection s
              /\ Snake.direction s' <> Snake.reverse (Snake.direction s)).
Proof.
  split; [|split].
  - intros s hDiff vDiff.
    destruct (latchDirection_not_reverse s hDiff vDiff) as [Hd [_ Hnd]].
    now split.
  - intros s now landmarks.
    destruct (processLandmarks_not_reverse s now landmarks)
      as [s' [Hp [Hd [_ Hnd]]]].
    exists s'. auto.
  - intros events.
    destruct (run_turnable canvas events Snake.initial) as [s [Hrun [Hr Hs]]].
    { split; simpl; discriminate. }
    exists s. split; [exact Hrun|]. split; [exact Hr|].
    intros placed.
    destruct (update_commits canvas s placed Hs) as [s' [Hu [Hd _]]].
    exists s'. split; [exact Hu|]. split; [exact Hd|]. now rewrite Hd.
Qed.

(** * Further properties of the two games *)

(** ** Comparisons of binary64 numbers *)













(** ** The paddle stays on the canvas *)



(** ** What the eviction loop removes *)

Lemma shiftOld_split (cutoff : Z) (h : list HeadPose) :
  exists evicted,
    h = evicted ++ Smoothing.shiftOld cutoff h
    /\ Forall (fun p => (timestamp p < cutoff)%Z) evicted.
Proof.
  induction h as [|p rest IH]; simpl.
  - exists []. auto.
  - destruct (timestamp p <? cutoff)%Z eqn:E.
    + destruct IH as [ev [Heq Hold]]. exists (p :: ev). split.
      * simpl. now rewrite <- Heq.
      * constructor; [now apply Z.ltb_lt|exact Hold].
    + exists []. auto.
Qed.

Lemma shiftOld_sorted_filter (cutoff : Z) (h : list HeadPose) :
  StronglySorted Z.le (timestamps h) ->
  Smoothing.shiftOld cutoff h
  = filter (fun p => (cutoff <=? timestamp p)%Z) h.
Proof.
  induction h as [|p rest IH]; simpl; intros Hs; [reflexivity|].
  inversion Hs as [|? ? Hrest Hall]; subst.
  destruct (timestamp p <? cutoff)%Z eqn:E.
  - apply Z.ltb_lt in E.
    replace (cutoff <=? timestamp p)%Z with false
      by (symmetry; apply Z.leb_gt; exact E).
    now apply IH.
  - apply Z.ltb_ge in E.
    replace (cutoff <=? timestamp p)%Z with true
      by (symmetry; apply Z.leb_le; exact E).
    f_equal. symmetry. apply forallb_filter_id. apply forallb_forall.
    intros q Hq. apply Z.leb_le.
    unfold timestamps in Hall. rewrite Forall_map, Forall_forall in Hall.
    specialize (Hall q Hq). simpl in Hall. lia.
Qed.

(** X2: in both games, whatever the clock does, a processed frame only
    drops a prefix of the history extended by the new sample, and every
    sample it drops is older than [now - SMOOTHING_DURATION]: no sample
    inside the window is ever evicted and the order is kept. *)
Theorem eviction_drops_only_old_prefix (canvas : Canvas) (now : Z)
    (landmarks : list NormalizedLandmark) (chin : NormalizedLandmark) :
  nth_error landmarks 152 = Some chin ->
  (forall s, exists s' evicted,
      Breakout.processLandmarks canvas s now landmarks = Normal s'
      /\ Breakout.poseHistory s ++ [sampleOf now chin]
         = evicted ++ Breakout.poseHistory s'
      /\ Forall (fun p => (timestamp p < now - Breakout.SMOOTHING_DURATION)%Z)
           evicted)
  /\ (forall s, exists s' evicted,
         Snake.processLandmarks s now landmarks = Normal s'
         /\ Snake.poseHistory s ++ [sampleOf now chin]
            = evicted ++ Snake.poseHistory s'
         /\ Forall (fun p => (timestamp p < now - Snake.SMOOTHING_DURATION)%Z)
              evicted).
Proof.
  intros Hchin. split; intros s.
  - destruct (breakout_processLandmarks_chin canvas s now landmarks chin
                Hchin) as [target [_ Hp]].
    destruct (shiftOld_split (now - Breakout.SMOOTHING_DURATION)
                (Breakout.poseHistory s ++ [sampleOf now chin]))
      as [ev [Heq Hold]].
    eexists. exists ev. split; [exact Hp|]. split; [exact Heq|exact Hold].
  - rewrite (snake_processLandmarks_chin s now landmarks chin Hchin).
    destruct (snake_resolve_total (snakeSampled s now chin)) as [s' Hr].
    destruct (shiftOld_split (now - Snake.SMOOTHING_DURATION)
                (Snake.poseHistory s ++ [sampleOf now chin]))
      as [ev [Heq Hold]].
    exists s', ev. split; [exact Hr|].
    apply snake_resolve_history in Hr. destruct Hr as [Hv _].
    injection Hv as Hh _. rewrite Hh. split; [exact Heq|exact Hold].
Qed.

Lemma eviction_drops_only_old_prefix_witness :
  exists s' evicted,
    Snake.processLandmarks calibratedSnake 3000 (faceWith (chinAt 0.52 0.5))
    = Normal s'
    /\ Snake.poseHistory calibratedSnake ++ [sampleOf 3000 (chinAt 0.52 0.5)]
       = evicted ++ Snake.poseHistory s'
    /\ Forall (fun p => (timestamp p < 3000 - Snake.SMOOTHING_DURATION)%Z)
         evicted.
Proof.
  exact (proj2 (eviction_drops_only_old_prefix canvas520 3000
                  (faceWith (chinAt 0.52 0.5)) (chinAt 0.52 0.5) eq_refl)
           calibratedSnake).
Defined.

(** X3: in both games, along every run whose clock readings never
    decrease, the history after a processed frame is exactly the samples
    of the extended history whose timestamp is at least
    [now - SMOOTHING_DURATION]: scanning from the head evicts as much as a
    scan of the whole array would. *)
Theorem eviction_equals_full_filter (canvas : Canvas) :
  (forall events now landmarks chin s,
      nondecreasing (breakoutReadings events ++ [now]) ->
      Breakout.run canvas (Breakout.initial canvas) events = Normal s ->
      nth_error landmarks 152 = Some chin ->
      exists s',
        Breakout.processLandmarks canvas s now landmarks = Normal s'
        /\ Breakout.poseHistory s'
           = filter
               (fun p => (now - Breakout.SMOOTHING_DURATION <=? timestamp p)%Z)
               (Breakout.poseHistory s ++ [sampleOf now chin]))
  /\ (forall events now landmarks chin s,
         nondecreasing (snakeReadings events ++ [now]) ->
         Snake.run canvas Snake.initial events = Normal s ->
         nth_error landmarks 152 = Some chin ->
         exists s',
           Snake.processLandmarks s now landmarks = Normal s'
           /\ Snake.poseHistory s'
              = filter
                  (fun p => (now - Snake.SMOOTHING_DURATION <=? timestamp p)%Z)
                  (Snake.poseHistory s ++ [sampleOf now chin])).
Proof.
  split; intros events now landmarks chin s Hclock Hrun Hchin.
  - assert (Hs : nondecreasing (timestamps (Breakout.poseHistory s) ++ [now])).
    { apply (breakout_run_chronological canvas events
               (Breakout.initial canvas) s [now]); [|exact Hrun].
      now rewrite breakout_initial_history. }
    destruct (breakout_processLandmarks_chin canvas s now landmarks chin
                Hchin) as [target [_ Hp]].
    eexists. split; [exact Hp|]. simpl. unfold Smoothing.pushAndPrune.
    apply shiftOld_sorted_filter. unfold timestamps. now rewrite map_app.
  - assert (Hs : nondecreasing (timestamps (Snake.poseHistory s) ++ [now])).
    { apply (snake_run_chronological canvas events Snake.initial s [now]);
        [exact Hclock|exact Hrun]. }
    rewrite (snake_processLandmarks_chin s now landmarks chin Hchin).
    destruct (snake_resolve_total (snakeSampled s now chin)) as [s' Hr].
    exists s'. split; [exact Hr|].
    apply snake_resolve_history in Hr. destruct Hr as [Hv _].
    injection Hv as Hh _. rewrite Hh. simpl. unfold Smoothing.pushAndPrune.
    apply shiftOld_sorted_filter. unfold timestamps. now rewrite map_app.
Qed.

Lemma eviction_equals_full_filter_witness :
  exists s s',
    Snake.run canvas520 Snake.initial
      [snakeFrame 1 1000 0.5 0.5; snakeFrame 2 1400 0.6 0.5] = Normal s
    /\ Snake.processLandmarks s 1600 (faceWith (chinAt 0.7 0.5)) = Normal s'
    /\ timestamps (Snake.poseHistory s') = [1400%Z; 1600%Z].
Proof.
  destruct (Snake.run canvas520 Snake.initial
              [snakeFrame 1 1000 0.5 0.5; snakeFrame 2 1400 0.6 0.5])
    as [s|] eqn:Hrun; [|vm_compute in Hrun; discriminate].
  destruct (proj2 (eviction_equals_full_filter canvas520)
              [snakeFrame 1 1000 0.5 0.5; snakeFrame 2 1400 0.6 0.5] 1600%Z
              (faceWith (chinAt 0.7 0.5)) (chinAt 0.7 0.5) s)
    as [s' [Hp Hf]].
  - repeat constructor; simpl; lia.
  - exact Hrun.
  - reflexivity.
  - exists s, s'. split; [reflexivity|]. split; [exact Hp|].
    rewrite Hf. vm_compute in Hrun. injection Hrun as <-. reflexivity.
Defined.

(** ** Invariants of the paddle game *)

Section HitLoop.

Variable P : Breakout.State -> Prop.
Hypothesis P_hit : forall s b, P s -> P (fst (Breakout.hitBrick s b)).
Hypothesis P_bricks : forall s bs, P s -> P (Breakout.set_bricks bs s).

Lemma hitColumn_keeps (column : list Breakout.Brick) :
  forall s, P s -> P (fst (Breakout.hitColumn s column)).
Proof.
  induction column as [|b rest IH]; intros s Hs; simpl; [exact Hs|].
  pose proof (P_hit s b Hs) as Hb.
  destruct (Breakout.hitBrick s b) as [s1 b1]. simpl in Hb.
  pose proof (IH s1 Hb) as Hr.
  destruct (Breakout.hitColumn s1 rest) as [s2 rest1]. exact Hr.
Qed.

Lemma hitColumns_keeps (columns : list (list Breakout.Brick)) :
  forall s, P s -> P (fst (Breakout.hitColumns s columns)).
Proof.
  induction columns as [|c rest IH]; intros s Hs; simpl; [exact Hs|].
  pose proof (hitColumn_keeps c s Hs) as Hc.
  destruct (Breakout.hitColumn s c) as [s1 c1]. simpl in Hc.
  pose proof (IH s1 Hc) as Hr.
  destruct (Breakout.hitColumns s1 rest) as [s2 rest1]. exact Hr.
Qed.

Lemma collisionDetection_keeps (s : Breakout.State) :
  P s -> P (Breakout.collisionDetection (Breakout.drawBricks s)).
Proof.
  intros Hs. unfold Breakout.collisionDetection.
  pose proof (hitColumns_keeps
                (Breakout.bricks (Breakout.drawBricks s))
                (Breakout.drawBricks s)
                (P_bricks s _ Hs)) as H.
  destruct (Breakout.hitColumns _ _) as [s1 b1]. simpl in H.
  now apply P_bricks.
Qed.

End HitLoop.

(** *** The loop flag and the lives *)

Lemma draw_keeps_stopped (canvas : Canvas) (s : Breakout.State) :
  (Breakout.gameRunning s = false ->
   Breakout.gameRunning (Breakout.draw canvas s) = false)
  /\ (Breakout.loopPending s = false ->
      Breakout.loopPending (Breakout.draw canvas s) = false).
Proof.
  split; intros H; unfold Breakout.draw.
  - pose proof (collisionDetection_keeps
                  (fun s => Breakout.gameRunning s = false)) as Hc.
    specialize (Hc
      ltac:(intros s0 b H0; unfold Breakout.hitBrick; split_ifs; simpl; auto)
      ltac:(intros s0 bs H0; exact H0) s H).
    revert Hc. generalize (Breakout.collisionDetection (Breakout.drawBricks s)).
    intros s1 H1. cbv zeta. split_ifs; simpl; auto.
  - pose proof (collisionDetection_keeps
                  (fun s => Breakout.loopPending s = false)) as Hc.
    specialize (Hc
      ltac:(intros s0 b H0; unfold Breakout.hitBrick; split_ifs; simpl; auto)
      ltac:(intros s0 bs H0; exact H0) s H).
    revert Hc. generalize (Breakout.collisionDetection (Breakout.drawBricks s)).
    intros s1 H1. cbv zeta. split_ifs; simpl; auto.
Qed.

Lemma draw_lives (canvas : Canvas) (s : Breakout.State) :
  (1 <= Breakout.lives s <= 3)%Z ->
  (0 <= Breakout.lives (Breakout.draw canvas s) <= 3)%Z
  /\ (Breakout.gameRunning (Breakout.draw canvas s) = true ->
      (1 <= Breakout.lives (Breakout.draw canvas s))%Z).
Proof.
  intros H. unfold Breakout.draw.
  pose proof (collisionDetection_keeps
                (fun s0 => Breakout.lives s0 = Breakout.lives s)) as Hc.
  specialize (Hc
    ltac:(intros s0 b H0; unfold Breakout.hitBrick; split_ifs; simpl; auto)
    ltac:(intros s0 bs H0; exact H0) s eq_refl).
  revert Hc. generalize (Breakout.collisionDetection (Breakout.drawBricks s)).
  intros s1 H1. cbv zeta.
  destruct (_ || _)%bool; simpl;
    (destruct (_ <? Breakout.ballRadius)%float; simpl; [rewrite H1; lia|]);
    (destruct (_ <? _)%float; simpl; [|rewrite H1; lia]);
    (destruct (_ && _)%bool; simpl; [rewrite H1; lia|]);
    (destruct (Breakout.lives s1 - 1 =? 0)%Z eqn:E; simpl;
     [apply Z.eqb_eq in E; split; [lia|discriminate]
     |apply Z.eqb_neq in E; rewrite H1 in *; lia]).
Qed.

(** *** The score and the wall *)

Lemma clearedColumn_cons (b : Breakout.Brick) (rest : list Breakout.Brick) :
  clearedColumn (b :: rest)
  = ((if (Breakout.status b =? 1)%Z then 0 else 1) + clearedColumn rest)%Z.
Proof.
  unfold clearedColumn. cbn [filter].
  destruct (Breakout.status b =? 1)%Z; cbn [negb length];
    rewrite ?Nat2Z.inj_succ; lia.
Qed.

Lemma clearedColumn_bounds (column : list Breakout.Brick) :
  (0 <= clearedColumn column <= Z.of_nat (length column))%Z.
Proof.
  induction column as [|b rest IH]; [unfold clearedColumn; simpl; lia|].
  rewrite clearedColumn_cons. simpl length.
  destruct (Breakout.status b =? 1)%Z; lia.
Qed.

Lemma cleared_bounds (bricks : list (list Breakout.Brick)) :
  wallShaped bricks -> (0 <= cleared bricks <= 35)%Z.
Proof.
  intros [Hlen Hall].
  assert (H : (0 <= cleared bricks
               <= Z.of_nat Breakout.brickRowCount
                  * Z.of_nat (length bricks))%Z).
  { clear Hlen. induction Hall as [|column rest Hc _ IH];
      [simpl; lia|].
    pose proof (clearedColumn_bounds column) as Hb. rewrite Hc in Hb.
    change (cleared (column :: rest))
      with (clearedColumn column + cleared rest)%Z.
    cbn [length]. rewrite Nat2Z.inj_succ. lia. }
  rewrite Hlen in H. unfold Breakout.brickRowCount,
    Breakout.brickColumnCount in H. lia.
Qed.

Lemma mapi_length {A B : Type} (f : nat -> A -> B) (l : list A) :
  forall i, length (Breakout.mapi f i l) = length l.
Proof. induction l as [|a rest IH]; intros i; simpl; [|rewrite IH]; auto. Qed.

Lemma mapi_clearedColumn (f : nat -> Breakout.Brick -> Breakout.Brick)
    (column : list Breakout.Brick) :
  (forall r b, Breakout.status (f r b) = Breakout.status b) ->
  forall i, clearedColumn (Breakout.mapi f i column) = clearedColumn column.
Proof.
  intros Hf. induction column as [|b rest IH]; intros i; simpl;
    [reflexivity|].
  now rewrite !clearedColumn_cons, Hf, IH.
Qed.

Lemma mapi_cleared
    (g : nat -> list Breakout.Brick -> list Breakout.Brick)
    (bricks : list (list Breakout.Brick)) :
  (forall c column, clearedColumn (g c column) = clearedColumn column) ->
  (forall c column, length (g c column) = length column) ->
  forall i,
    cleared (Breakout.mapi g i bricks) = cleared bricks
    /\ (wallShaped bricks -> wallShaped (Breakout.mapi g i bricks)).
Proof.
  intros Hc Hl i. split.
  - revert i. induction bricks as [|column rest IH]; intros i; simpl;
      [reflexivity|]. now rewrite Hc, IH.
  - intros [Hlen Hall]. split; [now rewrite mapi_length|].
    clear Hlen. revert i.
    induction Hall as [|column rest Hcol _ IH]; intros i; simpl;
      constructor; [now rewrite Hl|apply IH].
Qed.

Lemma drawBricks_wall (s : Breakout.State) :
  Breakout.score (Breakout.drawBricks s) = Breakout.score s
  /\ cleared (Breakout.bricks (Breakout.drawBricks s))
     = cleared (Breakout.bricks s)
  /\ (wallShaped (Breakout.bricks s) ->
      wallShaped (Breakout.bricks (Breakout.drawBricks s))).
Proof.
  split; [reflexivity|]. unfold Breakout.drawBricks. simpl Breakout.bricks.
  apply mapi_cleared.
  - intros c column. apply mapi_clearedColumn.
    intros r b. now destruct (Breakout.status b =? 1)%Z.
  - intros c column. apply mapi_length.
Qed.

Lemma clearedColumn_one (b : Breakout.Brick) :
  clearedColumn [b] = if (Breakout.status b =? 1)%Z then 0%Z else 1%Z.
Proof.
  rewrite clearedColumn_cons. unfold clearedColumn. simpl.
  destruct (Breakout.status b =? 1)%Z; reflexivity.
Qed.

Lemma hitBrick_score (s : Breakout.State) (b : Breakout.Brick) :
  (Breakout.score (fst (Breakout.hitBrick s b)) + clearedColumn [b]
   = Breakout.score s + clearedColumn [snd (Breakout.hitBrick s b)])%Z.
Proof.
  rewrite !clearedColumn_one. unfold Breakout.hitBrick.
  destruct (Breakout.status b =? 1)%Z eqn:E;
    [destruct (_ && _)%bool|];
    cbn [fst snd Breakout.status]; rewrite ?E;
    change (0 =? 1)%Z with false; cbv zeta iota;
    split_ifs; simpl; lia.
Qed.

Lemma hitColumn_score (column : list Breakout.Brick) :
  forall s,
    (Breakout.score (fst (Breakout.hitColumn s column))
     + clearedColumn column
     = Breakout.score s
       + clearedColumn (snd (Breakout.hitColumn s column)))%Z
    /\ length (snd (Breakout.hitColumn s column)) = length column.
Proof.
  induction column as [|b rest IH]; intros s; simpl; [split; [lia|auto]|].
  pose proof (hitBrick_score s b) as Hb.
  destruct (Breakout.hitBrick s b) as [s1 b1]. simpl in Hb.
  destruct (IH s1) as [Hr Hl].
  destruct (Breakout.hitColumn s1 rest) as [s2 rest1]. simpl in *.
  rewrite !clearedColumn_one in Hb. rewrite !clearedColumn_cons.
  split; [|now rewrite Hl].
  destruct (Breakout.status b =? 1)%Z, (Breakout.status b1 =? 1)%Z; lia.
Qed.

Lemma hitColumns_score (columns : list (list Breakout.Brick)) :
  forall s,
    (Breakout.score (fst (Breakout.hitColumns s columns)) + cleared columns
     = Breakout.score s + cleared (snd (Breakout.hitColumns s columns)))%Z
    /\ (wallShaped columns ->
        wallShaped (snd (Breakout.hitColumns s columns))).
Proof.
  assert (Hgen : forall s,
    (Breakout.score (fst (Breakout.hitColumns s columns)) + cleared columns
     = Breakout.score s + cleared (snd (Breakout.hitColumns s columns)))%Z
    /\ length (snd (Breakout.hitColumns s columns)) = length columns
    /\ (Forall (fun c => length c = Breakout.brickRowCount) columns ->
        Forall (fun c => length c = Breakout.brickRowCount)
          (snd (Breakout.hitColumns s columns)))).
  { induction columns as [|c rest IH]; intros s; simpl;
      [split; [lia|auto]|].
    destruct (hitColumn_score c s) as [Hc Hcl].
    destruct (Breakout.hitColumn s c) as [s1 c1]. simpl in Hc, Hcl.
    destruct (IH s1) as [Hr [Hl Hf]].
    destruct (Breakout.hitColumns s1 rest) as [s2 rest1]. simpl in *.
    split; [lia|]. split; [now rewrite Hl|].
    intros Hall. inversion Hall; subst.
    constructor; [congruence|auto]. }
  intros s. destruct (Hgen s) as [H1 [H2 H3]].
  split; [exact H1|]. intros [Hlen Hall]. split; [congruence|auto].
Qed.

Lemma draw_score (canvas : Canvas) (s : Breakout.State) :
  Breakout.score s = cleared (Breakout.bricks s) ->
  wallShaped (Breakout.bricks s) ->
  Breakout.score (Breakout.draw canvas s)
  = cleared (Breakout.bricks (Breakout.draw canvas s))
  /\ wallShaped (Breakout.bricks (Breakout.draw canvas s)).
Proof.
  intros Hscore Hwall. unfold Breakout.draw.
  assert (H1 : Breakout.score
                 (Breakout.collisionDetection (Breakout.drawBricks s))
               = cleared (Breakout.bricks
                   (Breakout.collisionDetection (Breakout.drawBricks s)))
               /\ wallShaped (Breakout.bricks
                    (Breakout.collisionDetection (Breakout.drawBricks s)))).
  { destruct (drawBricks_wall s) as [Hs [Hc Hw]].
    unfold Breakout.collisionDetection.
    destruct (hitColumns_score (Breakout.bricks (Breakout.drawBricks s))
                (Breakout.drawBricks s)) as [Hh Hhw].
    destruct (Breakout.hitColumns _ _) as [s1 b1]. simpl in *.
    split; [lia|auto]. }
  revert H1. generalize (Breakout.collisionDetection (Breakout.drawBricks s)).
  intros s1 H1. cbv zeta. split_ifs; simpl; exact H1.
Qed.

Lemma draw_unfinished (canvas : Canvas) (s : Breakout.State) :
  (Breakout.gameRunning s = true -> Breakout.score s <> 35%Z) ->
  Breakout.gameRunning (Breakout.draw canvas s) = true ->
  Breakout.score (Breakout.draw canvas s) <> 35%Z.
Proof.
  intros H. unfold Breakout.draw.
  pose proof (collisionDetection_keeps
                (fun s0 => Breakout.gameRunning s0 = true ->
                           Breakout.score s0 <> 35%Z)) as Hc.
  specialize (Hc
    ltac:(intros s0 b H0; unfold Breakout.hitBrick;
          destruct (Breakout.status b =? 1)%Z; simpl; [|exact H0];
          destruct (_ && _)%bool; simpl; [|exact H0];
          destruct (_ =? _)%Z eqn:E; simpl;
          [discriminate|intros _; now apply Z.eqb_neq in E])
    ltac:(intros s0 bs H0; exact H0) s H).
  revert Hc. generalize (Breakout.collisionDetection (Breakout.drawBricks s)).
  intros s1 H1. cbv zeta. split_ifs; simpl; auto; discriminate.
Qed.

Lemma draw_speed (canvas : Canvas) (s : Breakout.State) :
  (Breakout.ballDX s = 4%float \/ Breakout.ballDX s = (-4)%float) ->
  (Breakout.ballDY s = 4%float \/ Breakout.ballDY s = (-4)%float) ->
  (Breakout.ballDX (Breakout.draw canvas s) = 4%float
   \/ Breakout.ballDX (Breakout.draw canvas s) = (-4)%float)
  /\ (Breakout.ballDY (Breakout.draw canvas s) = 4%float
      \/ Breakout.ballDY (Breakout.draw canvas s) = (-4)%float).
Proof.
  intros Hx Hy. unfold Breakout.draw.
  pose proof (collisionDetection_keeps
                (fun s0 =>
                   (Breakout.ballDX s0 = 4%float
                    \/ Breakout.ballDX s0 = (-4)%float)
                   /\ (Breakout.ballDY s0 = 4%float
                       \/ Breakout.ballDY s0 = (-4)%float))) as Hc.
  specialize (Hc
    ltac:(intros s0 b [H0 [H1|H1]]; unfold Breakout.hitBrick;
          split_ifs; simpl; rewrite ?H1; auto)
    ltac:(intros s0 bs H0; exact H0) s (conj Hx Hy)).
  revert Hc. generalize (Breakout.collisionDetection (Breakout.drawBricks s)).
  intros s1 [[H1|H1] [H2|H2]]; cbv zeta;
    split_ifs; simpl; rewrite ?H1, ?H2; auto.
Qed.

(** *** Every callback keeps the game sound *)

Lemma draw_sound (canvas : Canvas) (s : Breakout.State) :
  Breakout.loopPending s = false ->
  (1 <= Breakout.lives s <= 3)%Z ->
  Breakout.score s = cleared (Breakout.bricks s) ->
  wallShaped (Breakout.bricks s) ->
  (Breakout.gameRunning s = true -> Breakout.score s <> 35%Z) ->
  (Breakout.ballDX s = 4%float \/ Breakout.ballDX s = (-4)%float) ->
  (Breakout.ballDY s = 4%float \/ Breakout.ballDY s = (-4)%float) ->
  breakoutSound (Breakout.gameLoop canvas s)
  /\ (Breakout.gameRunning s = false ->
      breakoutSound (Breakout.draw canvas s)).
Proof.
  intros Hp Hl Hs Hw Hu Hx Hy.
  destruct (draw_keeps_stopped canvas s) as [Hrun Hpend].
  destruct (draw_lives canvas s Hl) as [Hl1 Hl2].
  destruct (draw_score canvas s Hs Hw) as [Hs1 Hw1].
  pose proof (draw_unfinished canvas s Hu) as Hu1.
  destruct (draw_speed canvas s Hx Hy) as [Hx1 Hy1].
  split.
  - unfold Breakout.gameLoop. cbv zeta.
    destruct (Breakout.gameRunning (Breakout.draw canvas s)) eqn:E.
    + constructor; simpl; auto.
    + constructor; auto; try (rewrite E; discriminate).
      rewrite E. auto.
  - intros Hidle. constructor; auto.
    + rewrite Hrun, Hpend; auto.
Qed.

Lemma fresh_wall :
  cleared (repeat (repeat (Breakout.mkBrick 0 0 1) Breakout.brickRowCount)
             Breakout.brickColumnCount) = 0%Z
  /\ wallShaped
       (repeat (repeat (Breakout.mkBrick 0 0 1) Breakout.brickRowCount)
          Breakout.brickColumnCount).
Proof.
  split; [reflexivity|]. split; [reflexivity|]. repeat constructor.
Qed.

(** A state whose game variables are those [resetGame] assigns. *)
Lemma reset_sound (s : Breakout.State) :
  Breakout.loopPending s = Breakout.gameRunning s ->
  Breakout.lives s = 3%Z ->
  Breakout.score s = 0%Z ->
  Breakout.bricks s
  = repeat (repeat (Breakout.mkBrick 0 0 1) Breakout.brickRowCount)
      Breakout.brickColumnCount ->
  Breakout.ballDX s = 4%float ->
  Breakout.ballDY s = (-4)%float ->
  breakoutSound s.
Proof.
  intros Hp Hl Hs Hb Hx Hy. destruct fresh_wall as [Hc Hw].
  constructor; rewrite ?Hl, ?Hs, ?Hb, ?Hc, ?Hx, ?Hy; auto; try lia;
    intros _; discriminate.
Qed.

Lemma resetGame_sound (canvas : Canvas) (s : Breakout.State) :
  Breakout.loopPending s = Breakout.gameRunning s ->
  breakoutSound (Breakout.resetGame canvas s).
Proof. intros H. now apply reset_sound. Qed.

Lemma startGame_sound (canvas : Canvas) (s : Breakout.State) :
  breakoutSound s -> breakoutSound (Breakout.startGame canvas s).
Proof.
  intros Hs. unfold Breakout.startGame.
  destruct (Breakout.gameRunning s) eqn:E.
  - apply resetGame_sound. exact (sound_loop s Hs).
  - destruct fresh_wall as [Hc Hw].
    refine (proj1 (draw_sound canvas _ _ _ _ _ _ _ _));
      first [ exact Hw
            | change (Breakout.loopPending s = false);
              rewrite (sound_loop s Hs); exact E
            | change (1 <= 3 <= 3)%Z; lia
            | intros _; change (0 <> 35)%Z; discriminate
            | left; reflexivity | right; reflexivity
            | reflexivity ].
Qed.

Lemma breakout_initial_sound (canvas : Canvas) :
  breakoutSound (Breakout.initial canvas).
Proof.
  unfold Breakout.initial. destruct fresh_wall as [Hc Hw].
  refine (proj2 (draw_sound canvas _ _ _ _ _ _ _ _) _);
    first [ exact Hw
          | change (1 <= 3 <= 3)%Z; lia
          | intros _; change (0 <> 35)%Z; discriminate
          | left; reflexivity | right; reflexivity
          | reflexivity ].
Qed.

Lemma breakout_processLandmarks_total (canvas : Canvas)
    (s : Breakout.State) (now : Z) (landmarks : list NormalizedLandmark) :
  exists s', Breakout.processLandmarks canvas s now landmarks = Normal s'.
Proof.
  destruct (nth_error landmarks 152) as [chin|] eqn:Hchin.
  - destruct (breakout_processLandmarks_chin canvas s now landmarks chin
                Hchin) as [target [_ Hp]]. eauto.
  - unfold Breakout.processLandmarks. rewrite Hchin. eauto.
Qed.

Lemma breakout_predictWebcam_game (canvas : Canvas) (s s' : Breakout.State)
    (videoTime : float) (now : Z) (results : option FaceLandmarkerResult) :
  Breakout.predictWebcam canvas s videoTime now results = Normal s' ->
  breakoutGame s' = breakoutGame s.
Proof.
  unfold Breakout.predictWebcam.
  destruct (negb _); [|intros H; injection H as <-; reflexivity].
  cbv zeta.
  destruct results as [[[|face faces]]|]; cbn [faceLandmarks];
    try (intros H; injection H as <-; reflexivity).
  destruct (nth_error face 152) as [chin|] eqn:Hchin.
  - destruct (breakout_processLandmarks_chin canvas
                (Breakout.set_lastVideoTime videoTime s) now face chin Hchin)
      as [target [_ Hp]].
    rewrite Hp. intros H; injection H as <-. reflexivity.
  - unfold Breakout.processLandmarks. rewrite Hchin.
    intros H; injection H as <-. reflexivity.
Qed.

Lemma breakoutSound_game (s s' : Breakout.State) :
  breakoutGame s' = breakoutGame s -> breakoutSound s -> breakoutSound s'.
Proof.
  unfold breakoutGame. intros H Hs. destruct s, s'. simpl in H.
  injection H as -> -> -> -> -> -> -> -> ->.
  destruct Hs. constructor; assumption.
Qed.

Lemma breakout_step_sound (canvas : Canvas) (s : Breakout.State)
    (e : Breakout.Event) :
  breakoutSound s ->
  exists s', Breakout.step canvas s e = Normal s' /\ breakoutSound s'.
Proof.
  intros Hs. destruct e as [videoTime now results| |]; unfold Breakout.step.
  - destruct (Breakout.predictWebcam canvas s videoTime now results)
      as [s'|] eqn:Hp.
    + exists s'. split; [reflexivity|].
      apply (breakoutSound_game s s'); [|exact Hs].
      now apply breakout_predictWebcam_game in Hp.
    + exfalso. revert Hp. unfold Breakout.predictWebcam.
      destruct (negb _); [|discriminate]. cbv zeta.
      destruct results as [[[|face faces]]|]; cbn [faceLandmarks];
        try discriminate.
      destruct (breakout_processLandmarks_total canvas
                  (Breakout.set_lastVideoTime videoTime s) now face)
        as [s' Hs']. rewrite Hs'. discriminate.
  - destruct (Breakout.loopPending s) eqn:E; [|exists s; auto].
    eexists. split; [reflexivity|].
    assert (Hrun : Breakout.gameRunning s = true)
      by (rewrite <- (sound_loop s Hs); exact E).
    refine (proj1 (draw_sound canvas _ _ _ _ _ _ _ _)).
    + reflexivity.
    + pose proof (sound_lives s Hs). pose proof (sound_alive s Hs Hrun).
      change (1 <= Breakout.lives s <= 3)%Z. lia.
    + exact (sound_score s Hs).
    + exact (sound_wall s Hs).
    + exact (sound_unfinished s Hs).
    + exact (sound_dx s Hs).
    + exact (sound_dy s Hs).
  - eexists. split; [reflexivity|]. now apply startGame_sound.
Qed.

Lemma breakout_run_sound (canvas : Canvas) (events : list Breakout.Event) :
  forall s, breakoutSound s ->
  exists s', Breakout.run canvas s events = Normal s' /\ breakoutSound s'.
Proof.
  induction events as [|e rest IH]; intros s Hs; simpl.
  - now exists s.
  - destruct (breakout_step_sound canvas s e Hs) as [s1 [Hstep H1]].
    rewrite Hstep. simpl. now apply IH.
Qed.

(** ** Invariants of the snake game *)

Lemma removelast_cons_length {A : Type} (a : A) (l : list A) :
  length (removelast (a :: l)) = length l.
Proof.
  revert a. induction l as [|b rest IH]; intros a; [reflexivity|].
  change (removelast (a :: b :: rest)) with (a :: removelast (b :: rest)).
  cbn [length]. f_equal. apply IH.
Qed.

(** The four ways a tick can end, [head] being the moved and wrapped
    head. *)
Lemma update_outcome (canvas : Canvas) (s : Snake.State)
    (placed : Snake.Cell) (first : Snake.Cell) (rest : list Snake.Cell) :
  Snake.snake s = first :: rest ->
  exists head,
    (Snake.checkSelfCollision head (first :: rest) = true
     /\ Snake.update canvas s placed
        = Normal (Snake.endGame
                    (Snake.set_direction (Snake.newDirection s) s)))
    \/ (Snake.checkSelfCollision head (first :: rest) = false
        /\ (Snake.MAX_SCORE <=? Snake.score s + 1)%Z = true
        /\ Snake.update canvas s placed
           = Normal (Snake.endGame
                       (Snake.set_score (Snake.score s + 1)
                          (Snake.set_snake (head :: first :: rest)
                             (Snake.set_direction (Snake.newDirection s)
                                s)))))
    \/ (Snake.checkSelfCollision head (first :: rest) = false
        /\ (Snake.MAX_SCORE <=? Snake.score s + 1)%Z = false
        /\ Snake.update canvas s placed
           = Normal (Snake.placeFood placed
                       (Snake.set_score (Snake.score s + 1)
                          (Snake.set_snake (head :: first :: rest)
                             (Snake.set_direction (Snake.newDirection s)
                                s)))))
    \/ (Snake.checkSelfCollision head (first :: rest) = false
        /\ Snake.update canvas s placed
           = Normal (Snake.set_snake
                       (removelast (head :: first :: rest))
                       (Snake.set_direction (Snake.newDirection s) s))).
Proof.
  intros Hs. unfold Snake.update. cbv zeta.
  cbn [Snake.snake Snake.set_direction Snake.score Snake.set_score
       Snake.set_snake Snake.direction Snake.food].
  rewrite Hs. cbn [hd_error deref bind].
  match goal with
  | |- context [Snake.checkSelfCollision ?h _] =>
      exists h; generalize h; intros head
  end.
  destruct (Snake.checkSelfCollision _ _); [left; auto|].
  destruct (_ && _)%bool; [|right; right; right; auto].
  destruct (Snake.MAX_SCORE <=? Snake.score s + 1)%Z;
    [right; left; auto|right; right; left; auto].
Qed.

Lemma update_sound (canvas : Canvas) (s : Snake.State)
    (placed : Snake.Cell) :
  snakeSound s -> Snake.gameRunning s = true ->
  exists s', Snake.update canvas s placed = Normal s' /\ snakeSound s'.
Proof.
  intros [Hi Hl Hp Hplay] Hrun. specialize (Hplay Hrun).
  destruct (Snake.snake s) as [|first rest] eqn:Hs;
    [simpl in Hl; lia|].
  destruct (update_outcome canvas s placed first rest Hs)
    as [head [[_ Hu]|[[_ [E Hu]]|[[_ [E Hu]]|[_ Hu]]]]];
    rewrite Hu; eexists; (split; [reflexivity|]);
    unfold Snake.MAX_SCORE in *;
    try apply Z.leb_le in E; try apply Z.leb_gt in E;
    constructor;
    cbn [Snake.snake Snake.set_snake Snake.score Snake.set_score
         Snake.set_direction Snake.endGame Snake.placeFood Snake.set_food
         Snake.intervalActive Snake.gameRunning Snake.set_gameRunning
         Snake.set_intervalActive];
    rewrite ?Hs, ?removelast_cons_length;
    cbn [length] in *; rewrite ?Nat2Z.inj_succ in *;
    unfold Snake.MAX_SCORE;
    try (intros Hgo; first [discriminate Hgo|clear Hgo]);
    try lia; try reflexivity; try exact Hi; try discriminate.
Qed.

Lemma snake_predictWebcam_game (s s' : Snake.State) (videoTime : float)
    (now : Z) (results : option FaceLandmarkerResult) :
  Snake.predictWebcam s videoTime now results = Normal s' ->
  snakeGame s' = snakeGame s.
Proof.
  unfold Snake.predictWebcam.
  destruct (negb _); [|intros H; injection H as <-; reflexivity].
  cbv zeta.
  destruct results as [[[|face faces]]|]; cbn [faceLandmarks];
    try (intros H; injection H as <-; reflexivity).
  unfold Snake.processLandmarks.
  destruct (nth_error face 152) as [chin|];
    [|intros H; injection H as <-; reflexivity].
  cbv zeta. unfold Snake.resolve.
  destruct (_ || _)%bool; [intros H; injection H as <-; reflexivity|].
  destruct (Snake.neutralChinPosition _) as [n|]; simpl; [|discriminate].
  intros H; injection H as <-. unfold Snake.latchDirection.
  split_ifs; reflexivity.
Qed.

Lemma snake_predictWebcam_total (s : Snake.State) (videoTime : float)
    (now : Z) (results : option FaceLandmarkerResult) :
  exists s', Snake.predictWebcam s videoTime now results = Normal s'.
Proof.
  unfold Snake.predictWebcam. destruct (negb _); [|eauto]. cbv zeta.
  destruct results as [[[|face faces]]|]; cbn [faceLandmarks]; eauto.
  destruct (processLandmarks_not_reverse
              (Snake.set_lastVideoTime videoTime s) now face)
    as [s' [Hp _]]. eauto.
Qed.

Lemma snakeSound_game (s s' : Snake.State) :
  snakeGame s' = snakeGame s -> snakeSound s -> snakeSound s'.
Proof.
  unfold snakeGame. intros H Hs. destruct s, s'. simpl in H.
  injection H as -> -> -> -> -> ->.
  destruct Hs. constructor; assumption.
Qed.

Lemma snake_step_sound (canvas : Canvas) (s : Snake.State)
    (e : Snake.Event) :
  snakeSound s ->
  exists s', Snake.step canvas s e = Normal s' /\ snakeSound s'.
Proof.
  intros Hs. destruct e as [videoTime now results|placed|placed];
    unfold Snake.step.
  - destruct (snake_predictWebcam_total s videoTime now results)
      as [s' Hp].
    exists s'. split; [exact Hp|].
    apply (snakeSound_game s s'); [|exact Hs].
    now apply snake_predictWebcam_game in Hp.
  - destruct (Snake.intervalActive s) eqn:E; [|exists s; auto].
    apply update_sound; [exact Hs|].
    rewrite <- (sound_interval s Hs). exact E.
  - eexists. split; [reflexivity|]. unfold Snake.startGame.
    destruct (Snake.gameRunning s); [exact Hs|].
    constructor; simpl; unfold Snake.MAX_SCORE; try lia; reflexivity.
Qed.

Lemma snake_run_sound (canvas : Canvas) (events : list Snake.Event) :
  forall s, snakeSound s ->
  exists s', Snake.run canvas s events = Normal s' /\ snakeSound s'.
Proof.
  induction events as [|e rest IH]; intros s Hs; simpl.
  - now exists s.
  - destruct (snake_step_sound canvas s e Hs) as [s1 [Hstep H1]].
    rewrite Hstep. simpl. now apply IH.
Qed.

Lemma snake_initial_sound : snakeSound Snake.initial.
Proof.
  constructor; simpl; unfold Snake.MAX_SCORE; try lia; try discriminate;
    reflexivity.
Qed.

(** ** Statements about runs of the paddle game *)


(** X5: in the paddle game [lives] always stays between 0 and 3, and it
    is at least 1 whenever the game is running: the game ends in the very
    [draw] that takes the last life. *)
Theorem lives_stay_in_range (canvas : Canvas)
    (events : list Breakout.Event) :
  exists s,
    Breakout.run canvas (Breakout.initial canvas) events = Normal s
    /\ (0 <= Breakout.lives s <= 3)%Z
    /\ (Breakout.gameRunning s = true -> (1 <= Breakout.lives s)%Z).
Proof.
  destruct (breakout_run_sound canvas events (Breakout.initial canvas)
              (breakout_initial_sound canvas)) as [s [Hrun Hs]].
  exists s. split; [exact Hrun|].
  split; [exact (sound_lives s Hs)|exact (sound_alive s Hs)].
Qed.

(** X6: in the paddle game the wall always has [brickColumnCount]
    columns of [brickRowCount] bricks, [score] is always the number of
    bricks that have been hit, so it lies between 0 and 35, and it is
    below 35 whenever the game is running: clearing the last brick ends
    the game. *)
Theorem score_counts_cleared_bricks (canvas : Canvas)
    (events : list Breakout.Event) :
  exists s,
    Breakout.run canvas (Breakout.initial canvas) events = Normal s
    /\ wallShaped (Breakout.bricks s)
    /\ Breakout.score s = cleared (Breakout.bricks s)
    /\ (0 <= Breakout.score s <= 35)%Z
    /\ (Breakout.gameRunning s = true -> (Breakout.score s < 35)%Z).
Proof.
  destruct (breakout_run_sound canvas events (Breakout.initial canvas)
              (breakout_initial_sound canvas)) as [s [Hrun Hs]].
  exists s. split; [exact Hrun|].
  pose proof (cleared_bounds _ (sound_wall s Hs)) as Hb.
  rewrite <- (sound_score s Hs) in Hb.
  split; [exact (sound_wall s Hs)|]. split; [exact (sound_score s Hs)|].
  split; [exact Hb|]. intros Hgo.
  pose proof (sound_unfinished s Hs Hgo). lia.
Qed.

(** X7: in the paddle game the ball's velocity components are always 4
    or -4: bounces and hits only flip a sign. *)
Theorem ball_speed_is_constant (canvas : Canvas)
    (events : list Breakout.Event) :
  exists s,
    Breakout.run canvas (Breakout.initial canvas) events = Normal s
    /\ (Breakout.ballDX s = 4%float \/ Breakout.ballDX s = (-4)%float)
    /\ (Breakout.ballDY s = 4%float \/ Breakout.ballDY s = (-4)%float).
Proof.
  destruct (breakout_run_sound canvas events (Breakout.initial canvas)
              (breakout_initial_sound canvas)) as [s [Hrun Hs]].
  exists s. split; [exact Hrun|].
  split; [exact (sound_dx s Hs)|exact (sound_dy s Hs)].
Qed.

(** ** Statements about runs of the snake game *)

(** X8: in the snake game the snake always has [score + 1] segments,
    [score] stays between 0 and [MAX_SCORE], and it is below [MAX_SCORE]
    whenever the game is running. *)
Theorem snake_length_is_score_plus_one (canvas : Canvas)
    (events : list Snake.Event) :
  exists s,
    Snake.run canvas Snake.initial events = Normal s
    /\ Z.of_nat (length (Snake.snake s)) = (Snake.score s + 1)%Z
    /\ (0 <= Snake.score s <= Snake.MAX_SCORE)%Z
    /\ (Snake.gameRunning s = true -> (Snake.score s < Snake.MAX_SCORE)%Z).
Proof.
  destruct (snake_run_sound canvas events Snake.initial snake_initial_sound)
    as [s [Hrun Hs]].
  exists s. split; [exact Hrun|].
  split; [exact (sound_length s Hs)|].
  split; [exact (sound_points s Hs)|exact (sound_playing s Hs)].
Qed.



(** ** The neutral position over a session *)

Lemma breakout_step_neutral (canvas : Canvas) (s s' : Breakout.State)
    (e : Breakout.Event) :
  e <> Breakout.StartClicked ->
  Breakout.step canvas s e = Normal s' ->
  Breakout.gameRunning s' = Breakout.gameRunning s
  \/ Breakout.gameRunning s' = false.
Proof.
  intros Hne. destruct e as [videoTime now results| |]; unfold Breakout.step;
    [| |congruence].
  - intros H. apply breakout_predictWebcam_game in H.
    unfold breakoutGame in H. left. congruence.
  - destruct (Breakout.loopPending s); intros H; injection H as <-; auto.
    unfold Breakout.gameLoop. cbv zeta.
    destruct (Breakout.gameRunning (Breakout.draw canvas _)) eqn:E;
      [|now right].
    left. change (Breakout.gameRunning
                    (Breakout.draw canvas (Breakout.set_loopPending false s))
                  = Breakout.gameRunning (Breakout.set_loopPending false s)).
    destruct (Breakout.gameRunning (Breakout.set_loopPending false s)) eqn:E0;
      [exact E|].
    now apply (proj1 (draw_keeps_stopped canvas _)).
Qed.

Lemma breakout_step_latch (canvas : Canvas) (s s' : Breakout.State)
    (e : Breakout.Event) :
  e <> Breakout.StartClicked ->
  Breakout.step canvas s e = Normal s' ->
  Breakout.neutralChinPosition s' = Breakout.neutralChinPosition s
  \/ (Breakout.gameRunning s = true
      /\ Breakout.neutralChinPosition s = None
      /\ exists chin,
           Breakout.neutralChinPosition s'
           = Some (mkPoint (lm_x chin) (lm_y chin))).
Proof.
  intros Hne. destruct e as [videoTime now results| |]; unfold Breakout.step;
    [| |congruence].
  - unfold Breakout.predictWebcam.
    destruct (negb _); [|intros H; injection H as <-; auto].
    cbv zeta.
    destruct results as [[[|face faces]]|]; cbn [faceLandmarks];
      try (intros H; injection H as <-; auto).
    destruct (nth_error face 152) as [chin|] eqn:Hchin.
    + destruct (breakout_processLandmarks_chin canvas
                  (Breakout.set_lastVideoTime videoTime s) now face chin
                  Hchin) as [target [_ Hp]].
      rewrite Hp. intros H; injection H as <-. simpl.
      unfold Smoothing.calibrate.
      destruct (Breakout.gameRunning s),
        (Breakout.neutralChinPosition s); simpl; eauto.
    + unfold Breakout.processLandmarks. rewrite Hchin.
      intros H; injection H as <-. auto.
  - destruct (Breakout.loopPending s); intros H; injection H as <-; auto.
    left. pose proof (gameLoop_vision canvas
                        (Breakout.set_loopPending false s)) as Hv.
    now injection Hv.
Qed.

Lemma snake_update_keeps_stopped (canvas : Canvas) (s s' : Snake.State)
    (placed : Snake.Cell) :
  Snake.update canvas s placed = Normal s' ->
  Snake.gameRunning s' = Snake.gameRunning s
  \/ Snake.gameRunning s' = false.
Proof.
  destruct (Snake.snake s) as [|first rest] eqn:Hs.
  - unfold Snake.update. cbv zeta. simpl. rewrite Hs. discriminate.
  - destruct (update_outcome canvas s placed first rest Hs)
      as [head [[_ Hu]|[[_ [_ Hu]]|[[_ [_ Hu]]|[_ Hu]]]]];
      rewrite Hu; intros H; injection H as <-; auto.
Qed.

Lemma snake_step_running (canvas : Canvas) (s s' : Snake.State)
    (e : Snake.Event) :
  (forall placed, e <> Snake.StartClicked placed) ->
  Snake.step canvas s e = Normal s' ->
  Snake.gameRunning s' = Snake.gameRunning s
  \/ Snake.gameRunning s' = false.
Proof.
  intros Hne. destruct e as [videoTime now results|placed|placed];
    unfold Snake.step; [| |now specialize (Hne placed)].
  - intros H. apply snake_predictWebcam_game in H.
    unfold snakeGame in H. left. congruence.
  - destruct (Snake.intervalActive s);
      [apply snake_update_keeps_stopped|intros H; injection H as <-; auto].
Qed.

Lemma snake_step_latch (canvas : Canvas) (s s' : Snake.State)
    (e : Snake.Event) :
  (forall placed, e <> Snake.StartClicked placed) ->
  Snake.step canvas s e = Normal s' ->
  Snake.neutralChinPosition s' = Snake.neutralChinPosition s
  \/ (Snake.gameRunning s = true
      /\ Snake.neutralChinPosition s = None
      /\ exists chin,
           Snake.neutralChinPosition s'
           = Some (mkPoint (lm_x chin) (lm_y chin))).
Proof.
  intros Hne. destruct e as [videoTime now results|placed|placed];
    unfold Snake.step; [| |now specialize (Hne placed)].
  - unfold Snake.predictWebcam.
    destruct (negb _); [|intros H; injection H as <-; auto].
    cbv zeta.
    destruct results as [[[|face faces]]|]; cbn [faceLandmarks];
      try (intros H; injection H as <-; auto).
    unfold Snake.processLandmarks.
    destruct (nth_error face 152) as [chin|];
      [|intros H; injection H as <-; auto].
    cbv zeta. intros H. apply snake_resolve_history in H.
    destruct H as [Hv _]. injection Hv as _ Hn. rewrite Hn. simpl.
    unfold Smoothing.calibrate.
    destruct (Snake.gameRunning s), (Snake.neutralChinPosition s);
      simpl; eauto.
  - destruct (Snake.intervalActive s);
      [|intros H; injection H as <-; auto].
    unfold Snake.gameLoop. intros H. apply snake_update_vision in H.
    left. now injection H.
Qed.

(** X10: without a start click, a neutral position that is set never
    changes, in either game: no frame recalibrates it and no tick touches
    it, however long the run. *)
Theorem neutral_is_kept_until_next_start (canvas : Canvas)
    (neutral : Point) :
  (forall events s s',
      breakoutNoStart events ->
      Breakout.neutralChinPosition s = Some neutral ->
      Breakout.run canvas s events = Normal s' ->
      Breakout.neutralChinPosition s' = Some neutral)
  /\ (forall events s s',
         snakeNoStart events ->
         Snake.neutralChinPosition s = Some neutral ->
         Snake.run canvas s events = Normal s' ->
         Snake.neutralChinPosition s' = Some neutral).
Proof.
  split; intros events; induction events as [|e rest IH];
    intros s s' Hno Hn Hrun; simpl in Hrun;
    try (injection Hrun as <-; exact Hn); inversion Hno as [|? ? He Hrest];
    subst.
  - destruct (Breakout.step canvas s e) as [s1|] eqn:Hstep;
      simpl in Hrun; [|discriminate].
    apply (IH s1 s' Hrest); [|exact Hrun].
    destruct (breakout_step_latch canvas s s1 e He Hstep)
      as [Hsame|[_ [Hnone _]]]; congruence.
  - destruct (Snake.step canvas s e) as [s1|] eqn:Hstep;
      simpl in Hrun; [|discriminate].
    apply (IH s1 s' Hrest); [|exact Hrun].
    destruct (snake_step_latch canvas s s1 e He Hstep)
      as [Hsame|[_ [Hnone _]]]; congruence.
Qed.

Lemma neutral_is_kept_witness :
  exists s',
    Snake.run canvas520 calibratedSnake
      [snakeFrame 2 3000 0.9 0.1; Snake.TimerFired (Snake.mkCell 3 4);
       snakeFrame 3 3100 0.1 0.9] = Normal s'
    /\ Snake.neutralChinPosition s' = Some (mkPoint 0.5 0.5).
Proof.
  destruct (Snake.run canvas520 calibratedSnake
              [snakeFrame 2 3000 0.9 0.1; Snake.TimerFired (Snake.mkCell 3 4);
               snakeFrame 3 3100 0.1 0.9]) as [s'|] eqn:Hrun;
    [|vm_compute in Hrun; discriminate].
  exists s'. split; [reflexivity|].
  refine (proj2 (neutral_is_kept_until_next_start canvas520
                   (mkPoint 0.5 0.5)) _ calibratedSnake s' _ eq_refl Hrun).
  repeat constructor; intros placed; discriminate.
Defined.

(** X11: while no game is running and no start click arrives, no frame
    ever sets the neutral position, in either game: it stays [null] and
    the game stays stopped. *)
Theorem idle_frames_never_calibrate (canvas : Canvas) :
  (forall events s s',
      breakoutNoStart events ->
      Breakout.gameRunning s = false ->
      Breakout.neutralChinPosition s = None ->
      Breakout.run canvas s events = Normal s' ->
      Breakout.neutralChinPosition s' = None
      /\ Breakout.gameRunning s' = false)
  /\ (forall events s s',
         snakeNoStart events ->
         Snake.gameRunning s = false ->
         Snake.neutralChinPosition s = None ->
         Snake.run canvas s events = Normal s' ->
         Snake.neutralChinPosition s' = None
         /\ Snake.gameRunning s' = false).
Proof.
  split; intros events; induction events as [|e rest IH];
    intros s s' Hno Hidle Hn Hrun; simpl in Hrun;
    try (injection Hrun as <-; now split);
    inversion Hno as [|? ? He Hrest]; subst.
  - destruct (Breakout.step canvas s e) as [s1|] eqn:Hstep;
      simpl in Hrun; [|discriminate].
    apply (IH s1 s' Hrest); [| |exact Hrun].
    + destruct (breakout_step_neutral canvas s s1 e He Hstep); congruence.
    + destruct (breakout_step_latch canvas s s1 e He Hstep)
        as [Hsame|[Hgo _]]; congruence.
  - destruct (Snake.step canvas s e) as [s1|] eqn:Hstep;
      simpl in Hrun; [|discriminate].
    apply (IH s1 s' Hrest); [| |exact Hrun].
    + destruct (snake_step_running canvas s s1 e He Hstep); congruence.
    + destruct (snake_step_latch canvas s s1 e He Hstep)
        as [Hsame|[Hgo _]]; congruence.
Qed.

Lemma idle_frames_witness :
  exists s',
    Breakout.run canvas520 (Breakout.initial canvas520)
      [breakoutFrame 1 1000 0.4 0.5; Breakout.AnimationFrame;
       breakoutFrame 2 1016 0.6 0.5] = Normal s'
    /\ Breakout.neutralChinPosition s' = None
    /\ Breakout.gameRunning s' = false.
Proof.
  destruct (Breakout.run canvas520 (Breakout.initial canvas520)
              [breakoutFrame 1 1000 0.4 0.5; Breakout.AnimationFrame;
               breakoutFrame 2 1016 0.6 0.5]) as [s'|] eqn:Hrun;
    [|vm_compute in Hrun; discriminate].
  exists s'. split; [reflexivity|].
  refine (proj1 (idle_frames_never_calibrate canvas520) _
            (Breakout.initial canvas520) s' _ eq_refl eq_refl Hrun).
  repeat constructor; discriminate.
Defined.

(** ** Single frames *)

Lemma breakout_predictWebcam_stamp (canvas : Canvas) (s s' : Breakout.State)
    (videoTime : float) (now : Z) (results : option FaceLandmarkerResult) :
  Breakout.predictWebcam canvas s videoTime now results = Normal s' ->
  if (videoTime =? Breakout.lastVideoTime s)%float then s' = s
  else Breakout.lastVideoTime s' = videoTime.
Proof.
  unfold Breakout.predictWebcam.
  destruct (videoTime =? Breakout.lastVideoTime s)%float; simpl;
    [intros H; now injection H|].
  destruct results as [[[|face faces]]|]; cbn [faceLandmarks];
    try (intros H; injection H as <-; reflexivity).
  destruct (nth_error face 152) as [chin|] eqn:Hchin.
  - destruct (breakout_processLandmarks_chin canvas
                (Breakout.set_lastVideoTime videoTime s) now face chin Hchin)
      as [target [_ Hp]].
    rewrite Hp. intros H; injection H as <-. reflexivity.
  - unfold Breakout.processLandmarks. rewrite Hchin.
    intros H; injection H as <-. reflexivity.
Qed.

Lemma snake_predictWebcam_stamp (s s' : Snake.State) (videoTime : float)
    (now : Z) (results : option FaceLandmarkerResult) :
  Snake.predictWebcam s videoTime now results = Normal s' ->
  if (videoTime =? Snake.lastVideoTime s)%float then s' = s
  else Snake.lastVideoTime s' = videoTime.
Proof.
  unfold Snake.predictWebcam.
  destruct (videoTime =? Snake.lastVideoTime s)%float; simpl;
    [intros H; now injection H|].
  destruct results as [[[|face faces]]|]; cbn [faceLandmarks];
    try (intros H; injection H as <-; reflexivity).
  unfold Snake.processLandmarks.
  destruct (nth_error face 152) as [chin|];
    [|intros H; injection H as <-; reflexivity].
  cbv zeta. unfold Snake.resolve.
  destruct (_ || _)%bool; [intros H; injection H as <-; reflexivity|].
  destruct (Snake.neutralChinPosition _) as [n|]; simpl; [|discriminate].
  intros H; injection H as <-. unfold Snake.latchDirection.
  split_ifs; reflexivity.
Qed.

(** X12: a video frame presented twice is processed once, in both
    games: after [predictWebcam] has run for a [currentTime] that is not
    NaN, running it again for the same [currentTime] changes nothing,
    whatever the detector and the clock return the second time. *)
Theorem repeated_frame_is_skipped (canvas : Canvas) (videoTime : float)
    (now now' : Z) (results results' : option FaceLandmarkerResult) :
  (videoTime =? videoTime)%float = true ->
  (forall s s',
      Breakout.predictWebcam canvas s videoTime now results = Normal s' ->
      Breakout.predictWebcam canvas s' videoTime now' results' = Normal s')
  /\ (forall s s',
         Snake.predictWebcam s videoTime now results = Normal s' ->
         Snake.predictWebcam s' videoTime now' results' = Normal s').
Proof.
  intros Hnum. split; intros s s' H.
  - apply breakout_predictWebcam_stamp in H.
    unfold Breakout.predictWebcam.
    destruct (videoTime =? Breakout.lastVideoTime s)%float eqn:E.
    + subst s'. now rewrite E.
    + now rewrite H, Hnum.
  - apply snake_predictWebcam_stamp in H.
    unfold Snake.predictWebcam.
    destruct (videoTime =? Snake.lastVideoTime s)%float eqn:E.
    + subst s'. now rewrite E.
    + now rewrite H, Hnum.
Qed.

Lemma repeated_frame_witness :
  exists s',
    Breakout.predictWebcam canvas520 (Breakout.initial canvas520) 1 1000
      (detected (chinAt 0.5 0.5)) = Normal s'
    /\ Breakout.predictWebcam canvas520 s' 1 1016 (detected (chinAt 0.9 0.5))
       = Normal s'.
Proof.
  destruct (Breakout.predictWebcam canvas520 (Breakout.initial canvas520)
              1 1000 (detected (chinAt 0.5 0.5))) as [s'|] eqn:Hp;
    [|vm_compute in Hp; discriminate].
  exists s'. split; [reflexivity|].
  exact (proj1 (repeated_frame_is_skipped canvas520 1 1000 1016
                  (detected (chinAt 0.5 0.5)) (detected (chinAt 0.9 0.5))
                  eq_refl) _ s' Hp).
Defined.

(** X13: a frame in which the detector finds no face, or a face with
    fewer than 153 landmarks, is a no-op apart from [lastVideoTime], in
    both games: nothing throws, and the history, the neutral position,
    the paddle and the headings are left as they were. *)
Theorem frame_without_chin_changes_nothing (canvas : Canvas)
    (videoTime : float) (now : Z) (results : option FaceLandmarkerResult) :
  trackedChin results = None ->
  (forall s,
      Breakout.predictWebcam canvas s videoTime now results
      = Normal (if (videoTime =? Breakout.lastVideoTime s)%float then s
                else Breakout.set_lastVideoTime videoTime s))
  /\ (forall s,
         Snake.predictWebcam s videoTime now results
         = Normal (if (videoTime =? Snake.lastVideoTime s)%float then s
                   else Snake.set_lastVideoTime videoTime s))
  /\ (forall face faces,
         (length face <= 152)%nat ->
         trackedChin (Some (mkResult (face :: faces))) = None).
Proof.
  intros Hnone. split; [|split].
  - intros s. unfold Breakout.predictWebcam.
    destruct (videoTime =? Breakout.lastVideoTime s)%float; simpl;
      [reflexivity|].
    destruct results as [[[|face faces]]|]; cbn [faceLandmarks];
      try reflexivity.
    change (nth_error face 152 = None) in Hnone.
    unfold Breakout.processLandmarks. now rewrite Hnone.
  - intros s. unfold Snake.predictWebcam.
    destruct (videoTime =? Snake.lastVideoTime s)%float; simpl;
      [reflexivity|].
    destruct results as [[[|face faces]]|]; cbn [faceLandmarks];
      try reflexivity.
    change (nth_error face 152 = None) in Hnone.
    unfold Snake.processLandmarks. now rewrite Hnone.
  - intros face faces Hlen.
    change (nth_error face 152 = None). now apply nth_error_None.
Qed.

Lemma frame_without_chin_witness :
  Snake.predictWebcam calibratedSnake 2 3000
    (Some (mkResult [repeat (mkLandmark 0.9 0.9 0) 152]))
  = Normal (Snake.set_lastVideoTime 2 calibratedSnake).
Proof.
  exact (proj1 (proj2 (frame_without_chin_changes_nothing canvas520 2 3000
                         (Some (mkResult [repeat (mkLandmark 0.9 0.9 0) 152]))
                         eq_refl)) calibratedSnake).
Defined.

(** ** Vision and game logic keep to their own variables *)


(** ** When the aim-assist engages *)


(** ** Food placement *)

(** X16: when [placeFood] returns, the food block touches no segment of
    the snake: the food is the first pair of random draws whose block
    misses the snake, every earlier pair having been rejected, and
    nothing but [food] has changed. *)
Theorem food_never_lands_on_snake (canvas : Canvas)
    (Math_floor : float -> float) (randoms : list float) :
  forall s s',
    Food.placeFood canvas Math_floor randoms s = Some s' ->
    Food.onSnake (Snake.snake s') (Snake.food s') = false
    /\ (forall segment i j,
           In segment (Snake.snake s') ->
           In i [0; 1; 2]%float -> In j [0; 1; 2]%float ->
           ((Snake.cx segment =? Snake.cx (Snake.food s') + i)
            && (Snake.cy segment =? Snake.cy (Snake.food s') + j))%float%bool
           = false)
    /\ exists rejected u v rest,
         randoms = rejected ++ u :: v :: rest
         /\ s' = Snake.set_food (Food.candidate canvas Math_floor u v) s
         /\ Food.placeFood canvas Math_floor rejected s = None.
Proof.
  assert (Hset : forall c c' s,
             Snake.set_food c (Snake.set_food c' s) = Snake.set_food c s)
    by reflexivity.
  assert (Hmain : forall s s',
    Food.placeFood canvas Math_floor randoms s = Some s' ->
    Food.onSnake (Snake.snake s') (Snake.food s') = false
    /\ exists rejected u v rest,
         randoms = rejected ++ u :: v :: rest
         /\ s' = Snake.set_food (Food.candidate canvas Math_floor u v) s
         /\ Food.placeFood canvas Math_floor rejected s = None).
  { induction randoms as [randoms IH] using (well_founded_induction
      (wf_inverse_image _ nat _ (@length float) Nat.lt_wf_0)).
    intros s s'. destruct randoms as [|u [|v rest]]; simpl;
      try discriminate.
    destruct (Food.onSnake (Snake.snake s)
                (Food.candidate canvas Math_floor u v)) eqn:E.
    - intros H. apply IH in H; [|simpl; lia].
      destruct H as [Hfree [rejected [u' [v' [rest' [Hr [Hs' Hnone]]]]]]].
      split; [exact Hfree|].
      exists (u :: v :: rejected), u', v', rest'.
      split; [simpl; now rewrite Hr|]. split; [now rewrite Hs', Hset|].
      simpl. now rewrite E.
    - intros H; injection H as <-. split; [exact E|].
      exists [], u, v, rest. auto. }
  intros s s' H. destruct (Hmain s s' H) as [Hfree Hfirst].
  split; [exact Hfree|]. split; [|exact Hfirst].
  intros segment i j Hseg Hi Hj.
  unfold Food.onSnake in Hfree.
  destruct ((Snake.cx segment =? Snake.cx (Snake.food s') + i)
            && (Snake.cy segment =? Snake.cy (Snake.food s') + j))%float%bool
    eqn:E; [|reflexivity].
  rewrite <- Hfree. symmetry.
  apply existsb_exists. exists segment. split; [exact Hseg|].
  apply existsb_exists. exists i. split; [exact Hi|].
  apply existsb_exists. exists j. split; [exact Hj|exact E].
Qed.

Lemma food_never_lands_on_snake_witness :
  exists s',
    Food.placeFood canvas520 (fun n => n) [0.625; 0.5; 0.5; 0.5]%float
      (Snake.set_snake [Snake.mkCell 15 9] Snake.initial) = Some s'
    /\ Snake.food s' = Snake.mkCell 12 9
    /\ Food.onSnake (Snake.snake s') (Snake.food s') = false.
Proof.
  destruct (Food.placeFood canvas520 (fun n => n) [0.625; 0.5; 0.5; 0.5]%float
              (Snake.set_snake [Snake.mkCell 15 9] Snake.initial))
    as [s'|] eqn:Hp; [|vm_compute in Hp; discriminate].
  exists s'. split; [reflexivity|].
  split; [vm_compute in Hp; injection Hp as <-; reflexivity|].
  exact (proj1 (food_never_lands_on_snake canvas520 (fun n => n)
                  [0.625; 0.5; 0.5; 0.5]%float _ s' Hp)).
Defined.

(** ** The run invariants on a started game *)

Lemma lives_stay_in_range_witness :
  exists s,
    Breakout.run canvas520 (Breakout.initial canvas520)
      [Breakout.StartClicked; Breakout.AnimationFrame] = Normal s
    /\ (1 <= Breakout.lives s)%Z.
Proof.
  destruct (lives_stay_in_range canvas520
              [Breakout.StartClicked; Breakout.AnimationFrame])
    as [s [Hrun [_ Halive]]].
  exists s. split; [exact Hrun|]. apply Halive.
  vm_compute in Hrun. injection Hrun as <-. reflexivity.
Defined.

Lemma score_counts_cleared_bricks_witness :
  exists s,
    Breakout.run canvas520 (Breakout.initial canvas520)
      [Breakout.StartClicked; Breakout.AnimationFrame] = Normal s
    /\ (Breakout.score s < 35)%Z.
Proof.
  destruct (score_counts_cleared_bricks canvas520
              [Breakout.StartClicked; Breakout.AnimationFrame])
    as [s [Hrun [_ [_ [_ Hopen]]]]].
  exists s. split; [exact Hrun|]. apply Hopen.
  vm_compute in Hrun. injection Hrun as <-. reflexivity.
Defined.

Lemma snake_length_witness :
  exists s,
    Snake.run canvas520 Snake.initial
      [Snake.StartClicked (Snake.mkCell 3 4);
       Snake.TimerFired (Snake.mkCell 7 7)] = Normal s
    /\ (Snake.score s < Snake.MAX_SCORE)%Z.
Proof.
  destruct (snake_length_is_score_plus_one canvas520
              [Snake.StartClicked (Snake.mkCell 3 4);
               Snake.TimerFired (Snake.mkCell 7 7)])
    as [s [Hrun [_ [_ Hplay]]]].
  exists s. split; [exact Hrun|]. apply Hplay.
  vm_compute in Hrun. injection Hrun as <-. reflexivity.
Defined.
